(** * wawebupdate: the WhatsApp web update notifier, embedded and verified

    A shallow embedding of [wawebupdate.py] (a maubot plugin).  The plugin
    polls a version-check endpoint once an hour, compares the answer with the
    version kept in its configuration, and tells every joined room about a
    change.

    Layout: library types ([VersionInfo], [URL], JSON values), the effect
    monad (exceptions, the in-memory configuration, the outside world and a
    chronological trace of the effects performed), the plugin itself, then
    the theorems. *)

From Stdlib Require Import Ascii String Decimal DecimalString DecimalN.
From stdpp Require Import gmap strings list.

Local Open Scope string_scope.
Local Open Scope list_scope.

(** ** semver.VersionInfo *)

Module VersionInfo.

(** Modelled from the spec: [semver.VersionInfo] is a library class that is
    not part of the plugin's source.  Following the spec's data model a
    version is the triple (major, minor, patch); pre-release and build
    fields are left out and [parse] rejects the extended forms. *)
Record t : Type := mk { major : N; minor : N; patch : N }.

(** [str(n)] for a non-negative integer. *)
Definition numeral (n : N) : string :=
  NilEmpty.string_of_uint (N.to_uint n).

(** [str(v)], that is ["{major}.{minor}.{patch}"]. *)
Definition str (v : t) : string :=
  numeral (major v) +:+ "." +:+ numeral (minor v) +:+ "." +:+ numeral (patch v).

(** One numeric component, [0|[1-9]\d*]: digits only, not empty, no
    leading zero. *)
Definition parse_numeral (s : string) : option N :=
  match NilEmpty.uint_of_string s with
  | Some d => if uint_beq (unorm d) d then Some (N.of_uint d) else None
  | None => None
  end.

(** [s.split(".")]. *)
Fixpoint split_dot (s : string) : list string :=
  match s with
  | EmptyString => [EmptyString]
  | String c r =>
      if Ascii.eqb c "."%char then EmptyString :: split_dot r
      else match split_dot r with
           | h :: t => String c h :: t
           | [] => [String c EmptyString]
           end
  end.

(** [VersionInfo.parse]: [None] stands for the [ValueError] the library
    raises when the text does not match. *)
Definition parse (s : string) : option t :=
  match split_dot s with
  | [a; b; c] =>
      match parse_numeral a, parse_numeral b, parse_numeral c with
      | Some x, Some y, Some z => Some (mk x y z)
      | _, _, _ => None
      end
  | _ => None
  end.

(** Precedence: major, then minor, then patch. *)
Definition compare (a b : t) : comparison :=
  match N.compare (major a) (major b) with
  | Eq => match N.compare (minor a) (minor b) with
          | Eq => N.compare (patch a) (patch b)
          | c => c
          end
  | c => c
  end.

(** [a == b], [a != b], [a > b] and [a < b], all through [compare]. *)
Definition eqb (a b : t) : bool :=
  match compare a b with Eq => true | _ => false end.
Definition neqb (a b : t) : bool := negb (eqb a b).
Definition gtb (a b : t) : bool :=
  match compare a b with Gt => true | _ => false end.
Definition ltb (a b : t) : bool :=
  match compare a b with Lt => true | _ => false end.

End VersionInfo.

(** Strings without a dot, the pieces [split_dot] hands back unbroken. *)
Fixpoint dotless (s : string) : bool :=
  match s with
  | EmptyString => true
  | String c r => negb (Ascii.eqb c "."%char) && dotless r
  end.

(** ** Exceptions and results *)

(** Every failure the plugin can meet is an instance of Python's
    [Exception]; [MForbidden] is the one class the code tells apart.  Task
    cancellation, which is not an [Exception], belongs to the scheduler and
    is not part of this model. *)
Inductive exn : Type :=
| MForbidden (message : string)
| Exception (cls : string).

Definition TypeError : exn := Exception "TypeError".
Definition ValueError : exn := Exception "ValueError".
Definition KeyError : exn := Exception "KeyError".

Inductive result (A : Type) : Type :=
| Ok (a : A)
| Raise (e : exn).
Arguments Ok {A} a.
Arguments Raise {A} e.

(** ** yarl.URL *)

(** A URL is kept as its base and its query pairs.  [str_url] writes it out;
    percent-encoding is the identity on the version strings and platform
    selectors that occur here and is not modelled. *)
Record URL : Type := { base : string; query : list (string * string) }.

Definition str_pair (kv : string * string) : string :=
  fst kv +:+ "=" +:+ snd kv.

Fixpoint join_amp (l : list string) : string :=
  match l with
  | [] => ""
  | [x] => x
  | x :: r => x +:+ "&" +:+ join_amp r
  end.

Definition str_url (u : URL) : string :=
  match query u with
  | [] => base u
  | q => base u +:+ "?" +:+ join_amp (map str_pair q)
  end.

(** [URL.with_query(dict)]: the query is replaced; a value that is not a
    string ([None] here) is refused with a [TypeError]. *)
Fixpoint query_vars (q : list (string * option string))
  : result (list (string * string)) :=
  match q with
  | [] => Ok []
  | (k, Some v) :: r =>
      match query_vars r with
      | Ok r' => Ok ((k, v) :: r')
      | Raise e => Raise e
      end
  | (_, None) :: _ => Raise TypeError
  end.

Definition with_query (u : URL) (q : list (string * option string)) : result URL :=
  match query_vars q with
  | Ok q' => Ok {| base := base u; query := q' |}
  | Raise e => Raise e
  end.

(** ** The HTTP response *)

#[local] Unset Elimination Schemes.
Inductive json : Type :=
| JNull
| JBool (b : bool)
| JNum (z : Z)
| JStr (s : string)
| JArr (items : list json)
| JObj (members : list (string * json)).
#[local] Set Elimination Schemes.

(** What [http.get] hands back: the status line, which the plugin never
    looks at, and what [resp.json(content_type=None)] gives for the body. *)
Record response : Type := { status : N; body_json : result json }.

(** [d[key]] on a decoded object: the last member with that key wins, as in
    [json.loads]. *)
Fixpoint dict_get (members : list (string * json)) (key : string) : option json :=
  match members with
  | [] => None
  | (k, v) :: r =>
      match dict_get r key with
      | Some v' => Some v'
      | None => if String.eqb k key then Some v else None
      end
  end.

(** [resp_data["currentVersion"]]. *)
Definition subscript (data : json) (key : string) : result json :=
  match data with
  | JObj members =>
      match dict_get members key with
      | Some v => Ok v
      | None => Raise KeyError
      end
  | _ => Raise TypeError
  end.

(** [VersionInfo.parse(x)] on a decoded JSON value. *)
Definition parse_json (x : json) : result VersionInfo.t :=
  match x with
  | JStr s =>
      match VersionInfo.parse s with
      | Some v => Ok v
      | None => Raise ValueError
      end
  | _ => Raise TypeError
  end.

(** ** Effects *)

Definition room_id : Type := string.

Inductive level : Type := Info | Warning | Error.

(** The effects a run performs, in the order it performs them. *)
Inductive event : Type :=
| EvGet (u : URL) (user_agent : string)
| EvJoinedRooms
| EvSend (room : room_id) (msg : string)
| EvLeave (room : room_id)
| EvSave (cfg : gmap string string)
| EvLog (lvl : level) (msg : string)
| EvSleep (seconds : N).

(** The collaborators the plugin is handed: the HTTP client, the Matrix
    client and the configuration store.  Each may fail and may change the
    world [W] it lives in. *)
Record Env (W : Type) : Type := {
  http_get : URL -> string -> W -> result response * W;
  get_joined_rooms : W -> result (list room_id) * W;
  send_markdown : room_id -> string -> W -> result unit * W;
  leave_room : room_id -> W -> result unit * W;
  config_store_save : gmap string string -> W -> result unit * W;
  config_store_load : W -> result (gmap string string) * W;
  config_store_load_base : W -> result (option (gmap string string)) * W;
}.
Arguments http_get {W} _ _ _ _.
Arguments get_joined_rooms {W} _ _.
Arguments send_markdown {W} _ _ _ _.
Arguments leave_room {W} _ _ _.
Arguments config_store_save {W} _ _ _.
Arguments config_store_load {W} _ _.
Arguments config_store_load_base {W} _ _.

(** The plugin instance: its in-memory configuration, whether the poll task
    has been created, the world, and the trace so far. *)
Record state (W : Type) : Type := {
  config : gmap string string;
  poll_task : bool;
  world : W;
  trace : list event;
}.
Arguments config {W} _.
Arguments poll_task {W} _.
Arguments world {W} _.
Arguments trace {W} _.

(** A computation may raise; the state it leaves behind is kept either way. *)
Definition M (W A : Type) : Type := state W -> result A * state W.

Definition ret {W A} (a : A) : M W A := fun st => (Ok a, st).

Definition bind {W A B} (m : M W A) (k : A -> M W B) : M W B :=
  fun st =>
    match m st with
    | (Ok a, st') => k a st'
    | (Raise e, st') => (Raise e, st')
    end.

Definition raise {W A} (e : exn) : M W A := fun st => (Raise e, st).

(** [try: m  except Exception as e: h e]. *)
Definition try_except {W A} (m : M W A) (h : exn -> M W A) : M W A :=
  fun st =>
    match m st with
    | (Ok a, st') => (Ok a, st')
    | (Raise e, st') => h e st'
    end.

Definition lift {W A} (r : result A) : M W A := fun st => (r, st).

Declare Scope py_scope.
Delimit Scope py_scope with py.
Notation "x <- m ;; k" := (bind m (fun x => k))
  (at level 100, m at next level, right associativity) : py_scope.
Notation "m ;;; k" := (bind m (fun _ => k))
  (at level 100, right associativity) : py_scope.

(** ** The plugin *)

Definition FX_VERSION : N := 102.

Definition USER_AGENT : string :=
  "Mozilla/5.0 (X11; Linux x86_64; rv:" +:+ VersionInfo.numeral FX_VERSION
  +:+ ".0) Gecko/20100101 Firefox/" +:+ VersionInfo.numeral FX_VERSION +:+ ".0".

(** [WAWebUpdateBot.url]. *)
Definition url : URL :=
  {| base := "https://web.whatsapp.com/check-update"; query := [] |}.

(** [helper.copy(key)]: the stored value, when there is one, replaces the
    base's. *)
Definition copy (key : string) (source base : gmap string string)
  : gmap string string :=
  match source !! key with
  | Some v => <[key := v]> base
  | None => base
  end.

(** [Config.do_update]. *)
Definition do_update (source base : gmap string string) : gmap string string :=
  copy "platform" source (copy "last_known_version" source base).

(** [str(x)] for [x : VersionInfo | None], and [a or b] on strings. *)
Definition py_str (x : option VersionInfo.t) : string :=
  match x with
  | Some v => VersionInfo.str v
  | None => "None"
  end.

Definition py_or (a b : string) : string :=
  if String.eqb a "" then b else a.

(** [VersionInfo.parse(ver) if ver else None], where [ver] is what the
    configuration holds under the key ([None] when the key is missing). *)
Definition parse_if_set (ver : option string) : result (option VersionInfo.t) :=
  match ver with
  | Some s =>
      if String.eqb s "" then Ok None
      else match VersionInfo.parse s with
           | Some v => Ok (Some v)
           | None => Raise ValueError
           end
  | None => Ok None
  end.

(** The label table of [_notify_change]. *)
Definition thing_table : gmap string string :=
  list_to_map
    [ ("web", "web.whatsapp.com");
      ("darwin", "WhatsApp macOS");
      ("darwin-beta", "WhatsApp macOS (beta)");
      ("win32", "WhatsApp Windows");
      ("win32-beta", "WhatsApp Windows (beta)");
      ("win32-store", "WhatsApp Windows (store)") ].

Definition thing_of (platform : option string) : string :=
  default "unknown WhatsApp web platform" (platform ≫= (thing_table !!.)).

Definition action_of (new_version old_version : VersionInfo.t) : string :=
  if VersionInfo.gtb new_version old_version then "updated" else "downgraded".

(** The two glyphs, byte for byte as the source file spells them. *)
Definition emoji_of (new_version old_version : VersionInfo.t) : string :=
  if VersionInfo.gtb new_version old_version then "ðŸŽ‰" else "ðŸ¤”".

(** The markdown message and the line written to the log. *)
Definition msg_of (thing : string) (u : URL) (old_version new_version : VersionInfo.t)
  : string :=
  thing +:+ " has " +:+ action_of new_version old_version
  +:+ " [from " +:+ VersionInfo.str old_version +:+ "](" +:+ str_url u
  +:+ ") to " +:+ VersionInfo.str new_version
  +:+ " " +:+ emoji_of new_version old_version.

Definition info_of (thing : string) (old_version new_version : VersionInfo.t)
  : string :=
  thing +:+ " has " +:+ action_of new_version old_version
  +:+ " from " +:+ VersionInfo.str old_version
  +:+ " to " +:+ VersionInfo.str new_version.

Section Plugin.
Context {W : Type} (env : Env W).

Local Open Scope py_scope.

(** *** State and world access *)

Definition emit (e : event) : M W unit :=
  fun st =>
    (Ok tt, {| config := config st; poll_task := poll_task st;
               world := world st; trace := trace st ++ [e] |}).

Definition call {A} (op : W -> result A * W) : M W A :=
  fun st =>
    let (r, w) := op (world st) in
    (r, {| config := config st; poll_task := poll_task st;
           world := w; trace := trace st |}).

Definition get_config : M W (gmap string string) :=
  fun st => (Ok (config st), st).

Definition set_config (cfg : gmap string string) : M W unit :=
  fun st =>
    (Ok tt, {| config := cfg; poll_task := poll_task st;
               world := world st; trace := trace st |}).

Definition set_poll_task (b : bool) : M W unit :=
  fun st =>
    (Ok tt, {| config := config st; poll_task := b;
               world := world st; trace := trace st |}).

Definition log (lvl : level) (msg : string) : M W unit := emit (EvLog lvl msg).

(** [self.config.save()]. *)
Definition config_save : M W unit :=
  cfg <- get_config ;;
  emit (EvSave cfg) ;;;
  call (config_store_save env cfg).

(** [self.config.load_and_update()]: read the stored data, take the base
    configuration, let [do_update] carry the stored values over, keep the
    result and save it. *)
Definition load_and_update : M W unit :=
  data <- call (config_store_load env) ;;
  set_config data ;;;
  b <- call (config_store_load_base env) ;;
  match b with
  | None => raise ValueError
  | Some base_cfg =>
      set_config (do_update data base_cfg) ;;;
      config_save
  end.

(** *** Properties of [WAWebUpdateBot] *)

(** [self.platform]: a missing key reads as [None]. *)
Definition platform : M W (option string) :=
  cfg <- get_config ;;
  ret (cfg !! "platform").

(** The getter [self.last_known_version]. *)
Definition last_known_version : M W (option VersionInfo.t) :=
  cfg <- get_config ;;
  lift (parse_if_set (cfg !! "last_known_version")).

(** The setter [self.last_known_version = val]. *)
Definition set_last_known_version (val : VersionInfo.t) : M W unit :=
  cfg <- get_config ;;
  set_config (<["last_known_version" := VersionInfo.str val]> cfg) ;;;
  config_save.

(** *** [_notify_change] *)

(** The body of the [for room_id in ...] loop. *)
Definition notify_room (msg : string) (room : room_id) : M W unit :=
  try_except
    (emit (EvSend room msg) ;;; call (send_markdown env room msg))
    (fun e =>
       match e with
       | MForbidden message =>
           log Warning ("Failed to notify " +:+ room +:+ " about update: "
                        +:+ message +:+ ", leaving room") ;;;
           try_except
             (emit (EvLeave room) ;;; call (leave_room env room))
             (fun _ => log Error ("Failed to leave " +:+ room
                                  +:+ " after error sending message"))
       | Exception _ =>
           log Error ("Failed to notify " +:+ room +:+ " about update")
       end).

Fixpoint for_rooms (msg : string) (rooms : list room_id) : M W unit :=
  match rooms with
  | [] => ret tt
  | room :: rest => notify_room msg room ;;; for_rooms msg rest
  end.

Definition _notify_change (u : URL) (old_version new_version : VersionInfo.t)
  : M W unit :=
  p <- platform ;;
  let thing := thing_of p in
  log Info (info_of thing old_version new_version) ;;;
  rooms <- (emit EvJoinedRooms ;;; call (get_joined_rooms env)) ;;
  for_rooms (msg_of thing u old_version new_version) rooms.

(** *** The poll loop *)

(** Lines 79 to 87 of [_poll_once]: build the request, send it, decode the
    answer.  Returns [check_url] and [current_version]. *)
Definition fetch : M W (URL * VersionInfo.t) :=
  lkv <- last_known_version ;;
  p <- platform ;;
  check_url <- lift (with_query url
                       [ ("version", Some (py_or (py_str lkv) "2.2222.11"));
                         ("platform", p) ]) ;;
  emit (EvGet check_url USER_AGENT) ;;;
  resp <- call (http_get env check_url USER_AGENT) ;;
  resp_data <- lift (body_json resp) ;;
  cv <- lift (subscript resp_data "currentVersion") ;;
  current_version <- lift (parse_json cv) ;;
  ret (check_url, current_version).

(** [self.last_known_version is None or
     current_version != self.last_known_version]; the property is read
    again for the right operand, and a version differs from [None]. *)
Definition changed (current_version : VersionInfo.t) : M W bool :=
  lkv <- last_known_version ;;
  match lkv with
  | None => ret true
  | Some _ =>
      lkv' <- last_known_version ;;
      match lkv' with
      | None => ret true
      | Some b => ret (VersionInfo.neqb current_version b)
      end
  end.

(** Lines 88 to 94.  The old version handed to [_notify_change] is read
    from the property once more; comparing a version with [None] there
    would be a [TypeError]. *)
Definition compare_and_update (check_url : URL) (current_version : VersionInfo.t)
  : M W unit :=
  c <- changed current_version ;;
  if c : bool then
    lkv <- last_known_version ;;
    match lkv with
    | Some _ =>
        try_except
          (old <- last_known_version ;;
           match old with
           | Some old_version =>
               _notify_change check_url old_version current_version
           | None => raise TypeError
           end)
          (fun _ => log Error "Error notifying rooms about WhatsApp web update")
    | None => ret tt
    end ;;;
    set_last_known_version current_version
  else ret tt.

Definition _poll_once : M W unit :=
  r <- fetch ;;
  compare_and_update (fst r) (snd r).

(** One turn of the [while True] loop of [poll]. *)
Definition poll_cycle : M W unit :=
  try_except _poll_once
    (fun _ => log Error "Error polling WhatsApp web version") ;;;
  emit (EvSleep (60 * 60)).

(** The loop never returns by itself; [poll n] is its first [n] turns. *)
Fixpoint poll (turns : nat) : M W unit :=
  match turns with
  | O => ret tt
  | S n => poll_cycle ;;; poll n
  end.

(** *** Lifecycle *)

(** [start]: load the configuration, then create the poll task. *)
Definition start : M W unit :=
  load_and_update ;;;
  set_poll_task true.

(** [stop]: cancel the poll task. *)
Definition stop : M W unit := set_poll_task false.
End Plugin.

(** ** Reading traces *)

(** The delivery attempts of a trace, oldest first. *)
Fixpoint sends (tr : list event) : list (room_id * string) :=
  match tr with
  | [] => []
  | EvSend room msg :: r => (room, msg) :: sends r
  | _ :: r => sends r
  end.

(** The records handed to [config.save()], oldest first. *)
Fixpoint saves (tr : list event) : list (gmap string string) :=
  match tr with
  | [] => []
  | EvSave cfg :: r => cfg :: saves r
  | _ :: r => saves r
  end.

(** The rooms the plugin tried to leave. *)
Fixpoint leaves (tr : list event) : list room_id :=
  match tr with
  | [] => []
  | EvLeave room :: r => room :: leaves r
  | _ :: r => leaves r
  end.

Definition is_save (e : event) : bool :=
  match e with EvSave _ => true | _ => false end.

(** The notification dispatch is entered at the membership query. *)
Definition is_dispatch (e : event) : bool :=
  match e with EvJoinedRooms => true | _ => false end.

(** Position of the first event satisfying [p]. *)
Fixpoint first_index (p : event -> bool) (tr : list event) : option nat :=
  match tr with
  | [] => None
  | e :: r => if p e then Some 0 else S <$> first_index p r
  end.

(** "The baseline is saved before the dispatch is entered". *)
Definition persisted_before_dispatch (tr : list event) : bool :=
  match first_index is_save tr, first_index is_dispatch tr with
  | Some i, Some j => bool_decide (i < j)
  | _, _ => false
  end.

Definition is_2xx (code : N) : bool := ((200 <=? code) && (code <? 300))%N.

(** ** A small world to run the plugin in *)

Module Sim.

(** The answer of the version endpoint, the rooms joined, the rooms that
    refuse a message, the rooms where sending breaks for another reason,
    the rooms that cannot be left, and what the configuration store
    holds. *)
Record t : Type := {
  answer : result response;
  joined : list room_id;
  forbidden : list room_id;
  broken : list room_id;
  stuck : list room_id;
  stored : gmap string string;
  base_config : option (gmap string string);
}.

Definition mem (r : room_id) (l : list room_id) : bool :=
  existsb (String.eqb r) l.

Definition send (r : room_id) (msg : string) (w : t) : result unit * t :=
  if mem r (forbidden w) then (Raise (MForbidden "M_FORBIDDEN"), w)
  else if mem r (broken w) then (Raise (Exception "MatrixRequestError"), w)
  else (Ok tt, w).

Definition leave (r : room_id) (w : t) : result unit * t :=
  if mem r (stuck w) then (Raise (Exception "MatrixRequestError"), w)
  else (Ok tt,
        {| answer := answer w;
           joined := filter (fun x => negb (String.eqb r x)) (joined w);
           forbidden := forbidden w; broken := broken w; stuck := stuck w;
           stored := stored w; base_config := base_config w |}).

Definition save (cfg : gmap string string) (w : t) : result unit * t :=
  (Ok tt,
   {| answer := answer w; joined := joined w; forbidden := forbidden w;
      broken := broken w; stuck := stuck w;
      stored := cfg; base_config := base_config w |}).

Definition env : Env t :=
  {| http_get := fun _ _ w => (answer w, w);
     get_joined_rooms := fun w => (Ok (joined w), w);
     send_markdown := send;
     leave_room := leave;
     config_store_save := save;
     config_store_load := fun w => (Ok (stored w), w);
     config_store_load_base := fun w => (Ok (base_config w), w) |}.

Definition version_body (v : string) : result json :=
  Ok (JObj [("isBroken", JBool false); ("currentVersion", JStr v)]).

(** A plugin instance that has not run yet. *)
Definition instance (cfg : gmap string string) (w : t) : state t :=
  {| config := cfg; poll_task := false; world := w; trace := [] |}.

Definition quiet (a : result response) (rooms : list room_id) : t :=
  {| answer := a; joined := rooms; forbidden := []; broken := []; stuck := [];
     stored := ∅; base_config := Some ∅ |}.

End Sim.

(** ** Sample runs *)

Definition v_2_22_1 : VersionInfo.t := VersionInfo.mk 2 22 1.
Definition v_2_22_5 : VersionInfo.t := VersionInfo.mk 2 22 5.

(** A configuration for the web platform, with or without a baseline. *)
Definition cfg_web (baseline : option string) : gmap string string :=
  match baseline with
  | Some s => {[ "platform" := "web"; "last_known_version" := s ]}
  | None => {[ "platform" := "web" ]}
  end.

(** The request such a configuration leads to. *)
Definition check_url_web (version : string) : URL :=
  {| base := "https://web.whatsapp.com/check-update";
     query := [ ("version", version); ("platform", "web") ] |}.

Definition answer_of (code : N) (version : string) : result response :=
  Ok {| status := code; body_json := Sim.version_body version |}.

(** Baseline 2.22.1, the endpoint says 2.22.5, two rooms. *)
Definition run_update : state Sim.t :=
  Sim.instance (cfg_web (Some "2.22.1"))
    (Sim.quiet (answer_of 200 "2.22.5") ["!a"; "!b"]).

(** Baseline 2.22.5, the endpoint says 2.22.1. *)
Definition run_downgrade : state Sim.t :=
  Sim.instance (cfg_web (Some "2.22.5"))
    (Sim.quiet (answer_of 200 "2.22.1") ["!a"]).

(** Baseline 2.22.1, the endpoint says 2.22.1. *)
Definition run_same : state Sim.t :=
  Sim.instance (cfg_web (Some "2.22.1"))
    (Sim.quiet (answer_of 200 "2.22.1") ["!a"; "!b"]).

(** No baseline, the endpoint says 2.22.1. *)
Definition run_first : state Sim.t :=
  Sim.instance (cfg_web None)
    (Sim.quiet (answer_of 200 "2.22.1") ["!a"; "!b"]).

(** Baseline 2.22.1, the request fails. *)
Definition run_offline : state Sim.t :=
  Sim.instance (cfg_web (Some "2.22.1"))
    (Sim.quiet (Raise (Exception "ClientConnectorError")) ["!a"]).

(** Baseline 2.22.1, the endpoint answers 500 with a well-formed body. *)
Definition run_500 : state Sim.t :=
  Sim.instance (cfg_web (Some "2.22.1"))
    (Sim.quiet (answer_of 500 "2.22.5") ["!a"]).

(** Three rooms; the second refuses the message. *)
Definition run_fan_out : state Sim.t :=
  Sim.instance (cfg_web (Some "2.22.1"))
    {| Sim.answer := answer_of 200 "2.22.5";
       Sim.joined := ["!a"; "!b"; "!c"];
       Sim.forbidden := ["!b"]; Sim.broken := []; Sim.stuck := [];
       Sim.stored := ∅; Sim.base_config := Some ∅ |}.

(** Nothing configured: neither the store nor the base names a platform. *)
Definition run_unconfigured : state Sim.t :=
  Sim.instance ∅ (Sim.quiet (answer_of 200 "2.22.5") ["!a"]).

(** ** More trace readers and sample runs *)

(** The requests of a trace, and the lengths of its sleeps. *)
Fixpoint requests (tr : list event) : list URL :=
  match tr with
  | [] => []
  | EvGet u _ :: r => u :: requests r
  | _ :: r => requests r
  end.

Fixpoint sleeps (tr : list event) : list N :=
  match tr with
  | [] => []
  | EvSleep n :: r => n :: sleeps r
  | _ :: r => sleeps r
  end.

(** What a cycle that cannot build or send its request leaves in the
    trace. *)
Definition failed_turn : list event :=
  [ EvLog Error "Error polling WhatsApp web version"; EvSleep 3600 ].

(** The selectors the label table knows. *)
Definition known_platforms : list string :=
  [ "web"; "darwin"; "darwin-beta"; "win32"; "win32-beta"; "win32-store" ].

(** The small world again, with a configuration store that cannot write. *)
Definition env_read_only : Env Sim.t :=
  {| http_get := http_get Sim.env;
     get_joined_rooms := get_joined_rooms Sim.env;
     send_markdown := send_markdown Sim.env;
     leave_room := leave_room Sim.env;
     config_store_save := fun _ w => (Raise (Exception "OSError"), w);
     config_store_load := config_store_load Sim.env;
     config_store_load_base := config_store_load_base Sim.env |}.

(** The small world again, with a Matrix client that cannot list rooms. *)
Definition env_no_rooms : Env Sim.t :=
  {| http_get := http_get Sim.env;
     get_joined_rooms := fun w => (Raise (Exception "MatrixConnectionError"), w);
     send_markdown := send_markdown Sim.env;
     leave_room := leave_room Sim.env;
     config_store_save := config_store_save Sim.env;
     config_store_load := config_store_load Sim.env;
     config_store_load_base := config_store_load_base Sim.env |}.

(** The small world again, with a configuration store that cannot read. *)
Definition env_unreadable : Env Sim.t :=
  {| http_get := http_get Sim.env;
     get_joined_rooms := get_joined_rooms Sim.env;
     send_markdown := send_markdown Sim.env;
     leave_room := leave_room Sim.env;
     config_store_save := config_store_save Sim.env;
     config_store_load := fun w => (Raise (Exception "OSError"), w);
     config_store_load_base := config_store_load_base Sim.env |}.

(** A baseline that is not a version. *)
Definition run_garbled : state Sim.t :=
  Sim.instance (cfg_web (Some "latest"))
    (Sim.quiet (answer_of 200 "2.22.5") ["!a"]).

(** Three rooms; sending to the second breaks for a reason other than
    being forbidden. *)
Definition run_broken_room : state Sim.t :=
  Sim.instance (cfg_web (Some "2.22.1"))
    {| Sim.answer := answer_of 200 "2.22.5";
       Sim.joined := ["!a"; "!b"; "!c"];
       Sim.forbidden := []; Sim.broken := ["!b"]; Sim.stuck := [];
       Sim.stored := ∅; Sim.base_config := Some ∅ |}.

(** * Theorems *)

(** ** Versions: rendering, parsing, ordering *)

Example parse_sentinel :
  VersionInfo.parse "2.2222.11" = Some (VersionInfo.mk 2 2222 11).
Proof. reflexivity. Qed.

Example parse_rejects_leading_zero : VersionInfo.parse "2.022.1" = None.
Proof. reflexivity. Qed.

Example parse_rejects_two_parts : VersionInfo.parse "2.22" = None.
Proof. reflexivity. Qed.

Example parse_rejects_prerelease : VersionInfo.parse "2.22.1-beta" = None.
Proof. reflexivity. Qed.

Example str_example : VersionInfo.str (VersionInfo.mk 2 22 5) = "2.22.5".
Proof. reflexivity. Qed.

Lemma dotless_digits (d : uint) : dotless (NilEmpty.string_of_uint d) = true.
Proof. induction d; simpl; auto. Qed.

Lemma split_dot_nonempty (s : string) : VersionInfo.split_dot s ≠ [].
Proof.
  destruct s as [|c r]; simpl; [discriminate|].
  destruct (Ascii.eqb c "."); [discriminate|].
  destruct (VersionInfo.split_dot r); discriminate.
Qed.

Lemma split_dot_dotless (s : string) :
  dotless s = true → VersionInfo.split_dot s = [s].
Proof.
  induction s as [|c r IH]; simpl; [reflexivity|].
  intros [Hc Hr]%andb_true_iff.
  apply negb_true_iff in Hc. rewrite Hc, (IH Hr). reflexivity.
Qed.

Lemma split_dot_app (a r : string) :
  dotless a = true →
  VersionInfo.split_dot (a +:+ "." +:+ r) = a :: VersionInfo.split_dot r.
Proof.
  induction a as [|c a IH]; simpl; [reflexivity|].
  intros [Hc Ha]%andb_true_iff.
  apply negb_true_iff in Hc. rewrite Hc, (IH Ha). reflexivity.
Qed.

Lemma to_uint_normal (n : N) : unorm (N.to_uint n) = N.to_uint n.
Proof.
  rewrite <- (Unsigned.to_of (N.to_uint n)), Unsigned.of_to. reflexivity.
Qed.

Lemma parse_numeral_numeral (n : N) :
  VersionInfo.parse_numeral (VersionInfo.numeral n) = Some n.
Proof.
  unfold VersionInfo.parse_numeral, VersionInfo.numeral.
  rewrite NilEmpty.usu, to_uint_normal.
  rewrite (internal_uint_dec_lb _ _ eq_refl), Unsigned.of_to. reflexivity.
Qed.

Lemma parse_str (v : VersionInfo.t) :
  VersionInfo.parse (VersionInfo.str v) = Some v.
Proof.
  destruct v as [x y z]. unfold VersionInfo.parse, VersionInfo.str. simpl.
  rewrite split_dot_app by apply dotless_digits.
  rewrite split_dot_app by apply dotless_digits.
  rewrite split_dot_dotless by apply dotless_digits.
  rewrite !parse_numeral_numeral. reflexivity.
Qed.

Lemma str_not_empty (v : VersionInfo.t) : String.eqb (VersionInfo.str v) "" = false.
Proof.
  apply String.eqb_neq. intros E.
  pose proof (parse_str v) as P. rewrite E in P. discriminate.
Qed.

Lemma compare_eq_iff (a b : VersionInfo.t) :
  VersionInfo.compare a b = Eq ↔ a = b.
Proof.
  destruct a as [a1 a2 a3], b as [b1 b2 b3]. unfold VersionInfo.compare. simpl.
  split.
  - destruct (N.compare_spec a1 b1); try discriminate.
    destruct (N.compare_spec a2 b2); try discriminate.
    destruct (N.compare_spec a3 b3); try discriminate.
    intros _. congruence.
  - intros [= -> -> ->]. rewrite !N.compare_refl. reflexivity.
Qed.

Lemma compare_antisym (a b : VersionInfo.t) :
  VersionInfo.compare b a = CompOpp (VersionInfo.compare a b).
Proof.
  unfold VersionInfo.compare.
  rewrite (N.compare_antisym (VersionInfo.major a)).
  rewrite (N.compare_antisym (VersionInfo.minor a)).
  rewrite (N.compare_antisym (VersionInfo.patch a)).
  destruct (N.compare (VersionInfo.major a) (VersionInfo.major b)); simpl; auto.
  destruct (N.compare (VersionInfo.minor a) (VersionInfo.minor b)); simpl; auto.
Qed.

Lemma neqb_true_iff (a b : VersionInfo.t) :
  VersionInfo.neqb a b = true ↔ a ≠ b.
Proof.
  unfold VersionInfo.neqb, VersionInfo.eqb. rewrite <- compare_eq_iff.
  destruct (VersionInfo.compare a b); simpl; split; congruence.
Qed.

Lemma neqb_false_iff (a b : VersionInfo.t) :
  VersionInfo.neqb a b = false ↔ a = b.
Proof.
  unfold VersionInfo.neqb, VersionInfo.eqb. rewrite <- compare_eq_iff.
  destruct (VersionInfo.compare a b); simpl; split; congruence.
Qed.

(** Two different versions are ordered one way or the other. *)
Lemma neq_lt_or_gt (a b : VersionInfo.t) :
  a ≠ b → VersionInfo.ltb a b = true ∨ VersionInfo.gtb a b = true.
Proof.
  intros H. unfold VersionInfo.ltb, VersionInfo.gtb.
  destruct (VersionInfo.compare a b) eqn:E; auto.
  apply compare_eq_iff in E. contradiction.
Qed.

Lemma ltb_gtb (a b : VersionInfo.t) : VersionInfo.ltb a b = VersionInfo.gtb b a.
Proof.
  unfold VersionInfo.ltb, VersionInfo.gtb. rewrite (compare_antisym a b).
  destruct (VersionInfo.compare a b); reflexivity.
Qed.

(** ** Traces *)

Lemma sends_app (a b : list event) : sends (a ++ b) = sends a ++ sends b.
Proof.
  induction a as [|e a IH]; simpl; [reflexivity|].
  destruct e; simpl; rewrite IH; reflexivity.
Qed.

Lemma saves_app (a b : list event) : saves (a ++ b) = saves a ++ saves b.
Proof.
  induction a as [|e a IH]; simpl; [reflexivity|].
  destruct e; simpl; rewrite IH; reflexivity.
Qed.

Lemma leaves_app (a b : list event) : leaves (a ++ b) = leaves a ++ leaves b.
Proof.
  induction a as [|e a IH]; simpl; [reflexivity|].
  destruct e; simpl; rewrite IH; reflexivity.
Qed.

(** ** The plugin, step by step *)

Section Facts.
Context {W : Type} (env : Env W).

Implicit Types (st : state W) (msg : string) (room : room_id).

Lemma bind_ok {A B} (m : M W A) (k : A → M W B) st a st' :
  m st = (Ok a, st') → bind m k st = k a st'.
Proof. unfold bind. intros ->. reflexivity. Qed.

Lemma bind_raise {A B} (m : M W A) (k : A → M W B) st e st' :
  m st = (Raise e, st') → bind m k st = (Raise e, st').
Proof. unfold bind. intros ->. reflexivity. Qed.

(** Reading the properties leaves the instance alone. *)
Lemma last_known_version_run st :
  last_known_version st
  = (parse_if_set (config st !! "last_known_version"), st).
Proof. reflexivity. Qed.

Lemma platform_run st : platform st = (Ok (config st !! "platform"), st).
Proof. reflexivity. Qed.

(** One room: whatever the transport answers, the step returns, touches
    neither the configuration nor the task, and its trace starts with the
    delivery attempt. *)
Lemma notify_room_run msg room st :
  ∃ st' d,
    notify_room env msg room st = (Ok tt, st')
    ∧ config st' = config st
    ∧ poll_task st' = poll_task st
    ∧ trace st' = trace st ++ EvSend room msg :: d
    ∧ sends d = [] ∧ saves d = [].
Proof.
  unfold notify_room, try_except, bind, log, emit, call. simpl.
  destruct (send_markdown env room msg (world st)) as [[[]|[m|c]] w1]; simpl.
  - eexists _, []. repeat split; reflexivity.
  - destruct (leave_room env room w1) as [[[]|e] w2]; simpl.
    + eexists _, [_; _]. simpl. rewrite <- !app_assoc. repeat split; reflexivity.
    + eexists _, [_; _; _]. simpl. rewrite <- !app_assoc. repeat split; reflexivity.
  - eexists _, [_]. simpl. rewrite <- !app_assoc. repeat split; reflexivity.
Qed.

(** The loop over the rooms: one delivery attempt per room, in order. *)
Lemma for_rooms_run msg (rooms : list room_id) st :
  ∃ st' d,
    for_rooms env msg rooms st = (Ok tt, st')
    ∧ config st' = config st
    ∧ poll_task st' = poll_task st
    ∧ trace st' = trace st ++ d
    ∧ sends d = map (λ room, (room, msg)) rooms
    ∧ saves d = [].
Proof.
  revert st. induction rooms as [|room rest IH]; intros st; simpl.
  - exists st, []. rewrite app_nil_r. repeat split; reflexivity.
  - destruct (notify_room_run msg room st)
      as (st1 & d1 & E1 & C1 & T1 & Tr1 & S1 & V1).
    destruct (IH st1) as (st2 & d2 & E2 & C2 & T2 & Tr2 & S2 & V2).
    exists st2, (EvSend room msg :: d1 ++ d2).
    rewrite (bind_ok _ _ _ _ _ E1), E2.
    repeat split; try congruence.
    + rewrite Tr2, Tr1, <- app_assoc. reflexivity.
    + simpl. rewrite sends_app, S1, S2. reflexivity.
    + simpl. rewrite saves_app, V1, V2. reflexivity.
Qed.

(** [_notify_change] as a whole. *)
Lemma notify_change_run (u : URL) (old_version new_version : VersionInfo.t) st :
  let thing := thing_of (config st !! "platform") in
  ∃ r st' d,
    _notify_change env u old_version new_version st = (r, st')
    ∧ config st' = config st
    ∧ poll_task st' = poll_task st
    ∧ trace st' = trace st
                  ++ EvLog Info (info_of thing old_version new_version)
                  :: EvJoinedRooms :: d
    ∧ saves d = []
    ∧ ∀ room m, (room, m) ∈ sends d →
                m = msg_of thing u old_version new_version.
Proof.
  intros thing. unfold _notify_change.
  rewrite (bind_ok _ _ _ _ _ (platform_run st)). fold thing.
  unfold bind at 1. unfold log, emit at 1. simpl.
  unfold bind at 1. unfold bind at 1. unfold emit at 1, call at 1. simpl.
  destruct (get_joined_rooms env (world st)) as [[rooms|e] w1]; simpl.
  - match goal with |- context [for_rooms env ?m rooms ?s] =>
      destruct (for_rooms_run m rooms s) as (st2 & d & E & C & T & Tr & S & V)
    end.
    exists (Ok tt), st2, d. rewrite E. simpl in *.
    repeat split; try assumption.
    + rewrite Tr, <- !app_assoc. reflexivity.
    + intros room m. rewrite S. intros Hin.
      apply list_elem_of_fmap in Hin as (r & [= -> ->] & _). reflexivity.
  - eexists (Raise e), _, []. simpl. rewrite <- !app_assoc.
    repeat split; try reflexivity.
    intros room m Hin. inversion Hin.
Qed.
(** A fetch that returns: what was asked, what came back, and the state it
    leaves. *)
Lemma fetch_ok_inv st (u : URL) (v : VersionInfo.t) st1 :
  fetch env st = (Ok (u, v), st1) →
  ∃ lkv p resp w1 data cv,
    parse_if_set (config st !! "last_known_version") = Ok lkv
    ∧ config st !! "platform" = Some p
    ∧ u = {| base := base url;
             query := [ ("version", py_or (py_str lkv) "2.2222.11");
                        ("platform", p) ] |}
    ∧ http_get env u USER_AGENT (world st) = (Ok resp, w1)
    ∧ body_json resp = Ok data
    ∧ subscript data "currentVersion" = Ok cv
    ∧ parse_json cv = Ok v
    ∧ st1 = {| config := config st; poll_task := poll_task st;
               world := w1; trace := trace st ++ [EvGet u USER_AGENT] |}.
Proof.
  unfold fetch, bind, last_known_version, platform, get_config, lift, ret,
    emit, call, with_query. simpl.
  destruct (parse_if_set (config st !! "last_known_version")) as [lkv|e] eqn:Hl;
    [|discriminate].
  destruct (config st !! "platform") as [p|] eqn:Hp; [|discriminate]. simpl.
  match goal with |- context [http_get env ?u0 _ _] => set (u' := u0) end.
  destruct (http_get env u' USER_AGENT (world st)) as [[resp|e] w1] eqn:Hg;
    [|discriminate].
  destruct (body_json resp) as [data|e] eqn:Hb; [|discriminate].
  destruct (subscript data "currentVersion") as [cv|e] eqn:Hs; [|discriminate].
  destruct (parse_json cv) as [v'|e] eqn:Hv; [|discriminate].
  intros [= <- <- <-].
  exists lkv, p, resp, w1, data, cv. repeat split; assumption.
Qed.

(** A fetch that raises has changed nothing but, at most, sent the request. *)
Lemma fetch_raise_inv st (e : exn) st1 :
  fetch env st = (Raise e, st1) →
  config st1 = config st
  ∧ poll_task st1 = poll_task st
  ∧ (trace st1 = trace st ∨ ∃ u, trace st1 = trace st ++ [EvGet u USER_AGENT]).
Proof.
  unfold fetch, bind, last_known_version, platform, get_config, lift, ret,
    emit, call, with_query. simpl.
  destruct (parse_if_set (config st !! "last_known_version")) as [lkv|e0];
    [|intros [= <- <-]; auto].
  destruct (config st !! "platform") as [p|]; [|intros [= <- <-]; auto]. simpl.
  match goal with |- context [http_get env ?u0 _ _] => set (u' := u0) end.
  destruct (http_get env u' USER_AGENT (world st)) as [[resp|e0] w1];
    [|intros [= <- <-]; simpl; eauto].
  destruct (body_json resp) as [data|e0];
    [|intros [= <- <-]; simpl; eauto].
  destruct (subscript data "currentVersion") as [cv|e0];
    [|intros [= <- <-]; simpl; eauto].
  destruct (parse_json cv) as [v'|e0];
    [discriminate|intros [= <- <-]; simpl; eauto].
Qed.

(** The request of a cycle, from the configuration alone. *)
Lemma fetch_request st (lkv : option VersionInfo.t) (p : string) (r : result response) (w1 : W) :
  let u := {| base := base url;
              query := [ ("version", py_or (py_str lkv) "2.2222.11");
                         ("platform", p) ] |} in
  parse_if_set (config st !! "last_known_version") = Ok lkv →
  config st !! "platform" = Some p →
  http_get env u USER_AGENT (world st) = (r, w1) →
  fetch env st
  = (match r with
     | Ok resp =>
         match body_json resp with
         | Ok data =>
             match subscript data "currentVersion" with
             | Ok cv =>
                 match parse_json cv with
                 | Ok v => Ok (u, v)
                 | Raise e => Raise e
                 end
             | Raise e => Raise e
             end
         | Raise e => Raise e
         end
     | Raise e => Raise e
     end,
     {| config := config st; poll_task := poll_task st;
        world := w1; trace := trace st ++ [EvGet u USER_AGENT] |}).
Proof.
  intros u Hl Hp Hg. subst u.
  unfold fetch, bind, last_known_version, platform, get_config, lift, ret,
    emit, call, with_query. simpl in Hg |- *.
  rewrite Hl, Hp. simpl. rewrite Hg.
  destruct r as [resp|e]; [|reflexivity].
  destruct (body_json resp) as [data|e]; [|reflexivity].
  destruct (subscript data "currentVersion") as [cv|e]; [|reflexivity].
  destruct (parse_json cv) as [v|e]; reflexivity.
Qed.

(** No baseline: the fetched version is stored and saved, nothing else. *)
Lemma compare_and_update_first (u : URL) (v : VersionInfo.t) st :
  parse_if_set (config st !! "last_known_version") = Ok None →
  let cfg' := <["last_known_version" := VersionInfo.str v]> (config st) in
  compare_and_update env u v st
  = (fst (config_store_save env cfg' (world st)),
     {| config := cfg'; poll_task := poll_task st;
        world := snd (config_store_save env cfg' (world st));
        trace := trace st ++ [EvSave cfg'] |}).
Proof.
  intros Hl cfg'.
  unfold compare_and_update, changed, set_last_known_version, config_save,
    bind, last_known_version, get_config, set_config, lift, ret, emit, call.
  simpl. repeat (rewrite Hl; simpl). fold cfg'.
  destruct (config_store_save env cfg' (world st)); reflexivity.
Qed.

(** Same version as the baseline: nothing happens. *)
Lemma compare_and_update_same (u : URL) (b : VersionInfo.t) st :
  parse_if_set (config st !! "last_known_version") = Ok (Some b) →
  compare_and_update env u b st = (Ok tt, st).
Proof.
  intros Hl.
  unfold compare_and_update, changed, bind, last_known_version, get_config,
    lift, ret.
  simpl. repeat (rewrite Hl; simpl).
  rewrite (proj2 (neqb_false_iff b b) eq_refl). reflexivity.
Qed.

(** Another version than the baseline: the rooms are told, then the new
    version is stored and saved. *)
Lemma compare_and_update_changed (u : URL) (b v : VersionInfo.t) st :
  parse_if_set (config st !! "last_known_version") = Ok (Some b) →
  v ≠ b →
  let thing := thing_of (config st !! "platform") in
  let cfg' := <["last_known_version" := VersionInfo.str v]> (config st) in
  ∃ r st' d,
    compare_and_update env u v st = (r, st')
    ∧ config st' = cfg'
    ∧ poll_task st' = poll_task st
    ∧ trace st' = trace st
                  ++ EvLog Info (info_of thing b v) :: EvJoinedRooms :: d
                  ++ [EvSave cfg']
    ∧ saves d = []
    ∧ (∀ room m, (room, m) ∈ sends d → m = msg_of thing u b v).
Proof.
  intros Hl Hne thing cfg'.
  unfold compare_and_update, changed, try_except, set_last_known_version,
    config_save, bind, last_known_version, get_config, set_config, lift, ret.
  simpl. repeat (rewrite Hl; simpl).
  rewrite (proj2 (neqb_true_iff v b) Hne). repeat (rewrite Hl; simpl).
  destruct (notify_change_run u b v st)
    as (r & st2 & d & E & C & T & Tr & V & S).
  rewrite E.
  destruct r as [[]|e]; unfold log, emit, call; simpl; rewrite C; fold cfg'.
  - destruct (config_store_save env cfg' (world st2)) as [r' w'].
    exists r', {| config := cfg'; poll_task := poll_task st2; world := w';
                  trace := trace st2 ++ [EvSave cfg'] |}, d.
    simpl. rewrite Tr, <- !app_assoc. repeat split; assumption.
  - destruct (config_store_save env cfg' (world st2)) as [r' w'].
    eexists r', _, (d ++ [EvLog Error _]).
    simpl. rewrite Tr, <- !app_assoc. simpl.
    repeat split; try assumption.
    + rewrite saves_app, V. reflexivity.
    + intros room m. rewrite sends_app. simpl. rewrite app_nil_r. apply S.
Qed.


Lemma poll_once_after_fetch st (u : URL) (v : VersionInfo.t) st1 :
  fetch env st = (Ok (u, v), st1) →
  _poll_once env st = compare_and_update env u v st1.
Proof. intros H. unfold _poll_once. rewrite (bind_ok _ _ _ _ _ H). reflexivity. Qed.

Lemma parse_if_set_str (v : VersionInfo.t) (cfg : gmap string string) :
  parse_if_set (<["last_known_version" := VersionInfo.str v]> cfg
                !! "last_known_version") = Ok (Some v).
Proof.
  rewrite lookup_insert_eq. unfold parse_if_set.
  rewrite str_not_empty, parse_str. reflexivity.
Qed.

Lemma set_last_known_version_config (v : VersionInfo.t) st :
  config (snd (set_last_known_version env v st))
  = <["last_known_version" := VersionInfo.str v]> (config st).
Proof.
  unfold set_last_known_version, config_save, bind, get_config, set_config,
    emit, call. simpl.
  destruct (config_store_save env _ (world st)). reflexivity.
Qed.

(** ** The claims *)

(** C10: for every version [v], parsing its rendering gives [v] back; so the
    baseline getter, run after the setter has stored [v], returns [v]
    (whether or not the save that ends the setter succeeded). *)
Theorem version_round_trip (v : VersionInfo.t) st :
  VersionInfo.parse (VersionInfo.str v) = Some v
  ∧ (let st' := snd (set_last_known_version env v st) in
     last_known_version st' = (Ok (Some v), st')).
Proof.
  split; [apply parse_str|]. simpl.
  rewrite last_known_version_run, set_last_known_version_config.
  rewrite parse_if_set_str. reflexivity.
Qed.

(** C4: once the joined rooms are known, [_notify_change] returns normally
    whatever each delivery does, and its trace holds exactly one delivery
    attempt per room, in order, each with the formatted message: no failure
    at one room keeps the later rooms from being tried, and no exception
    leaves the operation. *)
Theorem notify_change_fan_out st (u : URL) (old_version new_version : VersionInfo.t)
    (rooms : list room_id) (w1 : W) :
  get_joined_rooms env (world st) = (Ok rooms, w1) →
  ∃ st' d,
    _notify_change env u old_version new_version st = (Ok tt, st')
    ∧ trace st' = trace st ++ d
    ∧ sends d
      = map (λ room, (room, msg_of (thing_of (config st !! "platform"))
                                   u old_version new_version)) rooms.
Proof.
  intros Hr. unfold _notify_change.
  rewrite (bind_ok _ _ _ _ _ (platform_run st)).
  unfold bind at 1. unfold log, emit at 1. simpl.
  unfold bind at 1. unfold bind at 1. unfold emit at 1, call at 1. simpl.
  rewrite Hr.
  match goal with |- context [for_rooms env ?m rooms ?s] =>
    destruct (for_rooms_run m rooms s) as (st2 & d & E & C & T & Tr & S & V)
  end.
  eexists st2, (EvLog Info _ :: EvJoinedRooms :: d). split; [exact E|].
  simpl in Tr. rewrite Tr, <- !app_assoc. split; [reflexivity|exact S].
Qed.

(** C9: when the delivery to a room fails as forbidden, the step logs a
    warning, then tries to leave the room; if leaving fails too, that is
    logged, and either way the step returns normally with the configuration
    untouched. *)
Theorem forbidden_room_is_left st msg room (message : string) (w1 : W) :
  send_markdown env room msg (world st) = (Raise (MForbidden message), w1) →
  ∃ st',
    notify_room env msg room st = (Ok tt, st')
    ∧ config st' = config st
    ∧ world st' = snd (leave_room env room w1)
    ∧ trace st'
      = trace st
        ++ [ EvSend room msg;
             EvLog Warning ("Failed to notify " +:+ room +:+ " about update: "
                            +:+ message +:+ ", leaving room");
             EvLeave room ]
        ++ match fst (leave_room env room w1) with
           | Ok _ => []
           | Raise _ => [ EvLog Error ("Failed to leave " +:+ room
                                       +:+ " after error sending message") ]
           end.
Proof.
  intros Hs.
  unfold notify_room, try_except, bind, log, emit, call. simpl.
  rewrite Hs. simpl.
  destruct (leave_room env room w1) as [[[]|e] w2]; simpl;
    eexists; rewrite <- !app_assoc; simpl; repeat split; reflexivity.
Qed.

(** C8: in a cycle whose fetch returns the very version that is the
    baseline, the configuration is left as it was, nothing is saved and no
    room is written to: the request is the cycle's only effect. *)
Theorem same_version_is_noop st (u : URL) (b v : VersionInfo.t) st1 :
  fetch env st = (Ok (u, v), st1) →
  parse_if_set (config st !! "last_known_version") = Ok (Some b) →
  v = b →
  _poll_once env st = (Ok tt, st1)
  ∧ config st1 = config st
  ∧ trace st1 = trace st ++ [EvGet u USER_AGENT]
  ∧ saves (trace st1) = saves (trace st)
  ∧ sends (trace st1) = sends (trace st).
Proof.
  intros Hf Hl ->.
  rewrite (poll_once_after_fetch _ _ _ _ Hf).
  destruct (fetch_ok_inv _ _ _ _ Hf)
    as (lkv & p & resp & w1 & data & cv & _ & _ & _ & _ & _ & _ & _ & ->).
  simpl. rewrite compare_and_update_same by exact Hl.
  rewrite saves_app, sends_app. simpl. rewrite !app_nil_r.
  repeat split; reflexivity.
Qed.

(** C5: in a cycle that starts without a baseline and whose fetch returns
    [v], [v] becomes the baseline, the record holding it is handed to
    [save], and no room is written to: after the request, the save is the
    only effect. *)
Theorem first_run_adopts_silently st (u : URL) (v : VersionInfo.t) st1 :
  fetch env st = (Ok (u, v), st1) →
  parse_if_set (config st !! "last_known_version") = Ok None →
  ∃ r st',
    _poll_once env st = (r, st')
    ∧ config st' = <["last_known_version" := VersionInfo.str v]> (config st)
    ∧ parse_if_set (config st' !! "last_known_version") = Ok (Some v)
    ∧ trace st' = trace st ++ [EvGet u USER_AGENT; EvSave (config st')]
    ∧ sends (trace st') = sends (trace st)
    ∧ r = fst (config_store_save env (config st') (world st1)).
Proof.
  intros Hf Hl.
  rewrite (poll_once_after_fetch _ _ _ _ Hf).
  destruct (fetch_ok_inv _ _ _ _ Hf)
    as (lkv & p & resp & w1 & data & cv & _ & _ & _ & _ & _ & _ & _ & ->).
  rewrite compare_and_update_first by exact Hl. simpl.
  eexists _, _. split; [reflexivity|]. simpl.
  rewrite parse_if_set_str, <- !app_assoc, !sends_app. simpl.
  rewrite app_nil_r. repeat split; reflexivity.
Qed.


(** C6: in a cycle with baseline [b] whose fetch returns another version
    [v], higher or lower, [v] becomes the baseline and its record is handed
    to [save]; the log line and every message sent carry the action
    "updated" when [v > b] and "downgraded" when [v < b]. *)
Theorem changed_version_updates_baseline st (u : URL) (b v : VersionInfo.t) st1 :
  fetch env st = (Ok (u, v), st1) →
  parse_if_set (config st !! "last_known_version") = Ok (Some b) →
  v ≠ b →
  let thing := thing_of (config st !! "platform") in
  ∃ r st' d,
    _poll_once env st = (r, st')
    ∧ config st' = <["last_known_version" := VersionInfo.str v]> (config st)
    ∧ parse_if_set (config st' !! "last_known_version") = Ok (Some v)
    ∧ trace st' = trace st
                  ++ EvGet u USER_AGENT
                  :: EvLog Info (info_of thing b v)
                  :: EvJoinedRooms :: d ++ [EvSave (config st')]
    ∧ (∀ room m, (room, m) ∈ sends d → m = msg_of thing u b v)
    ∧ (VersionInfo.gtb v b = true → action_of v b = "updated")
    ∧ (VersionInfo.ltb v b = true → action_of v b = "downgraded")
    ∧ (VersionInfo.gtb v b = true ∨ VersionInfo.ltb v b = true).
Proof.
  intros Hf Hl Hne thing.
  rewrite (poll_once_after_fetch _ _ _ _ Hf).
  destruct (fetch_ok_inv _ _ _ _ Hf)
    as (lkv & p & resp & w1 & data & cv & _ & _ & _ & _ & _ & _ & _ & ->).
  destruct (compare_and_update_changed u b v
              {| config := config st; poll_task := poll_task st; world := w1;
                 trace := trace st ++ [EvGet u USER_AGENT] |} Hl Hne)
    as (r & st' & d & E & C & _ & Tr & _ & S).
  simpl in *. exists r, st', d. rewrite E, C, parse_if_set_str.
  rewrite Tr, <- !app_assoc. simpl.
  repeat split; try assumption.
  - unfold action_of. intros ->. reflexivity.
  - unfold action_of, VersionInfo.ltb, VersionInfo.gtb.
    destruct (VersionInfo.compare v b); try discriminate. reflexivity.
  - destruct (neq_lt_or_gt v b Hne); auto.
Qed.

(** C1 (amended): in a cycle with a baseline whose fetch returns another
    version, the notification dispatch comes first and the save of the new
    baseline is the cycle's last effect: nothing is saved before or during
    the dispatch, so the baseline is not persisted before the dispatch is
    entered. *)
Theorem notify_then_persist st (u : URL) (b v : VersionInfo.t) st1 :
  fetch env st = (Ok (u, v), st1) →
  parse_if_set (config st !! "last_known_version") = Ok (Some b) →
  v ≠ b →
  ∃ r st' d,
    _poll_once env st = (r, st')
    ∧ trace st' = trace st ++ d ++ [EvSave (config st')]
    ∧ parse_if_set (config st' !! "last_known_version") = Ok (Some v)
    ∧ EvJoinedRooms ∈ d
    ∧ saves d = []
    ∧ persisted_before_dispatch (d ++ [EvSave (config st')]) = false.
Proof.
  intros Hf Hl Hne.
  rewrite (poll_once_after_fetch _ _ _ _ Hf).
  destruct (fetch_ok_inv _ _ _ _ Hf)
    as (lkv & p & resp & w1 & data & cv & _ & _ & _ & _ & _ & _ & _ & ->).
  destruct (compare_and_update_changed u b v
              {| config := config st; poll_task := poll_task st; world := w1;
                 trace := trace st ++ [EvGet u USER_AGENT] |} Hl Hne)
    as (r & st' & d & E & C & _ & Tr & V & _).
  simpl in *.
  eexists r, st', (EvGet u USER_AGENT :: EvLog Info _ :: EvJoinedRooms :: d).
  rewrite E, C, parse_if_set_str, Tr, <- !app_assoc. simpl.
  repeat split; try assumption.
  - set_solver.
  - unfold persisted_before_dispatch. simpl.
    destruct (first_index is_save (d ++ _)) as [i|]; simpl;
      first [reflexivity | apply bool_decide_eq_false; lia].
Qed.

(** C7 (amended): in a cycle whose fetch raises (the request fails, the body
    is not JSON, or [currentVersion] is missing or does not parse), the
    configuration is left as it was, nothing is saved, no room is written
    to, the failure is logged, the cycle sleeps its hour and the loop goes
    on with the next turn. *)
Theorem failed_fetch_is_noop_cycle st (e : exn) st1 :
  fetch env st = (Raise e, st1) →
  ∃ st',
    poll_cycle env st = (Ok tt, st')
    ∧ config st' = config st
    ∧ poll_task st' = poll_task st
    ∧ trace st' = trace st1
                  ++ [ EvLog Error "Error polling WhatsApp web version";
                       EvSleep 3600 ]
    ∧ saves (trace st') = saves (trace st)
    ∧ sends (trace st') = sends (trace st)
    ∧ ∀ n, poll env (S n) st = poll env n st'.
Proof.
  intros Hf.
  destruct (fetch_raise_inv _ _ _ Hf) as (C & T & Tr).
  assert (Hc : poll_cycle env st
               = (Ok tt,
                  {| config := config st1; poll_task := poll_task st1;
                     world := world st1;
                     trace := trace st1
                              ++ [ EvLog Error "Error polling WhatsApp web version";
                                   EvSleep 3600 ] |})).
  { unfold poll_cycle, _poll_once, try_except.
    unfold bind at 1. rewrite (bind_raise _ _ _ _ _ Hf).
    unfold log, emit. simpl. rewrite <- app_assoc. reflexivity. }
  eexists. split; [exact Hc|]. simpl.
  repeat split; try assumption.
  - rewrite saves_app. simpl. rewrite app_nil_r.
    destruct Tr as [->|[u0 ->]]; [reflexivity|].
    rewrite saves_app. simpl. apply app_nil_r.
  - rewrite sends_app. simpl. rewrite app_nil_r.
    destruct Tr as [->|[u0 ->]]; [reflexivity|].
    rewrite sends_app. simpl. apply app_nil_r.
  - intros n. simpl. rewrite (bind_ok _ _ _ _ _ Hc). reflexivity.
Qed.



Lemma do_update_platform_absent (data base_cfg : gmap string string) :
  data !! "platform" = None →
  base_cfg !! "platform" = None →
  do_update data base_cfg !! "platform" = None.
Proof.
  intros Hd Hb. unfold do_update, copy. rewrite Hd.
  destruct (data !! "last_known_version"); [|exact Hb].
  rewrite lookup_insert_ne by discriminate. exact Hb.
Qed.

(** C3 (amended): with no [platform] in the stored or in the base
    configuration, [start] raises nothing on that account: once the
    configuration is loaded and saved, the poll task is created, and
    [platform] reads as absent. *)
Theorem start_without_platform st (data base_cfg : gmap string string)
    (w1 w2 w3 : W) :
  config_store_load env (world st) = (Ok data, w1) →
  config_store_load_base env w1 = (Ok (Some base_cfg), w2) →
  config_store_save env (do_update data base_cfg) w2 = (Ok tt, w3) →
  data !! "platform" = None →
  base_cfg !! "platform" = None →
  ∃ st',
    start env st = (Ok tt, st')
    ∧ poll_task st' = true
    ∧ config st' = do_update data base_cfg
    ∧ platform st' = (Ok None, st').
Proof.
  intros Hload Hbase Hsave Hd Hb.
  unfold start, load_and_update, config_save, set_poll_task, bind, call,
    get_config, set_config, emit. simpl.
  rewrite Hload. simpl. rewrite Hbase. simpl. rewrite Hsave.
  eexists. split; [reflexivity|]. simpl.
  rewrite platform_run. simpl.
  rewrite (do_update_platform_absent _ _ Hd Hb). repeat split; reflexivity.
Qed.

(** Without a platform no request can be built: the cycle logs the
    [TypeError] and sleeps. *)
Lemma poll_cycle_without_platform st (lkv : option VersionInfo.t) :
  config st !! "platform" = None →
  parse_if_set (config st !! "last_known_version") = Ok lkv →
  poll_cycle env st
  = (Ok tt,
     {| config := config st; poll_task := poll_task st; world := world st;
        trace := trace st
                 ++ [ EvLog Error "Error polling WhatsApp web version";
                      EvSleep 3600 ] |}).
Proof.
  intros Hp Hl.
  unfold poll_cycle, _poll_once, fetch, try_except, bind, last_known_version,
    platform, get_config, lift, ret, log, emit, with_query. simpl.
  rewrite Hl, Hp. simpl. rewrite <- app_assoc. reflexivity.
Qed.

(** C2: what the code does.  In a cycle without a baseline the request's
    [version] parameter is the text "None", the rendering of Python's
    [None], and not the sentinel "2.2222.11". *)
Theorem no_baseline_request st (p : string) :
  parse_if_set (config st !! "last_known_version") = Ok None →
  config st !! "platform" = Some p →
  trace (snd (fetch env st))
  = trace st
    ++ [ EvGet {| base := "https://web.whatsapp.com/check-update";
                  query := [ ("version", "None"); ("platform", p) ] |}
               USER_AGENT ].
Proof.
  intros Hl Hp.
  destruct (http_get env
              {| base := base url;
                 query := [ ("version", py_or (py_str None) "2.2222.11");
                            ("platform", p) ] |}
              USER_AGENT (world st)) as [r w1] eqn:Hg.
  rewrite (fetch_request st None p r w1 Hl Hp Hg). reflexivity.
Qed.

End Facts.

(** ** The claims on sample runs *)

Lemma notify_change_fan_out_witness :
  get_joined_rooms Sim.env (world run_fan_out)
  = (Ok ["!a"; "!b"; "!c"], world run_fan_out)
  ∧ ∃ st' d,
      _notify_change Sim.env (check_url_web "2.22.1") v_2_22_1 v_2_22_5 run_fan_out
      = (Ok tt, st')
      ∧ trace st' = trace run_fan_out ++ d
      ∧ sends d
        = map (λ room, (room, msg_of (thing_of (config run_fan_out !! "platform"))
                                     (check_url_web "2.22.1") v_2_22_1 v_2_22_5))
              ["!a"; "!b"; "!c"].
Proof.
  split; [reflexivity|].
  apply (notify_change_fan_out Sim.env run_fan_out (check_url_web "2.22.1")
           v_2_22_1 v_2_22_5 ["!a"; "!b"; "!c"] (world run_fan_out)).
  reflexivity.
Defined.

(** The spec's fan-out case: the first and third rooms get the message,
    the second is left, and the call returns. *)
Example fan_out_isolation :
  let r := _notify_change Sim.env (check_url_web "2.22.1") v_2_22_1 v_2_22_5
             run_fan_out in
  fst r = Ok tt
  ∧ map fst (sends (trace (snd r))) = ["!a"; "!b"; "!c"]
  ∧ leaves (trace (snd r)) = ["!b"]
  ∧ Sim.joined (world (snd r)) = ["!a"; "!c"].
Proof. vm_compute. repeat split; reflexivity. Qed.

Lemma forbidden_room_is_left_witness :
  send_markdown Sim.env "!b" "hello" (world run_fan_out)
  = (Raise (MForbidden "M_FORBIDDEN"), world run_fan_out)
  ∧ ∃ st',
      notify_room Sim.env "hello" "!b" run_fan_out = (Ok tt, st')
      ∧ config st' = config run_fan_out
      ∧ world st' = snd (leave_room Sim.env "!b" (world run_fan_out))
      ∧ trace st'
        = trace run_fan_out
          ++ [ EvSend "!b" "hello";
               EvLog Warning ("Failed to notify " +:+ "!b" +:+ " about update: "
                              +:+ "M_FORBIDDEN" +:+ ", leaving room");
               EvLeave "!b" ]
          ++ match fst (leave_room Sim.env "!b" (world run_fan_out)) with
             | Ok _ => []
             | Raise _ => [ EvLog Error ("Failed to leave " +:+ "!b"
                                         +:+ " after error sending message") ]
             end.
Proof.
  split; [reflexivity|].
  apply (forbidden_room_is_left Sim.env run_fan_out "hello" "!b" "M_FORBIDDEN"
           (world run_fan_out)).
  reflexivity.
Defined.

Lemma same_version_is_noop_witness :
  let st1 := snd (fetch Sim.env run_same) in
  fetch Sim.env run_same = (Ok (check_url_web "2.22.1", v_2_22_1), st1)
  ∧ parse_if_set (config run_same !! "last_known_version") = Ok (Some v_2_22_1)
  ∧ _poll_once Sim.env run_same = (Ok tt, st1)
  ∧ config st1 = config run_same
  ∧ trace st1 = trace run_same ++ [EvGet (check_url_web "2.22.1") USER_AGENT]
  ∧ saves (trace st1) = saves (trace run_same)
  ∧ sends (trace st1) = sends (trace run_same).
Proof.
  intros st1.
  assert (Hf : fetch Sim.env run_same
               = (Ok (check_url_web "2.22.1", v_2_22_1), st1))
    by (vm_compute; reflexivity).
  assert (Hl : parse_if_set (config run_same !! "last_known_version")
               = Ok (Some v_2_22_1))
    by (vm_compute; reflexivity).
  split; [exact Hf|]. split; [exact Hl|].
  exact (same_version_is_noop Sim.env run_same (check_url_web "2.22.1")
           v_2_22_1 v_2_22_1 st1 Hf Hl eq_refl).
Defined.

Lemma first_run_adopts_silently_witness :
  let st1 := snd (fetch Sim.env run_first) in
  fetch Sim.env run_first = (Ok (check_url_web "None", v_2_22_1), st1)
  ∧ parse_if_set (config run_first !! "last_known_version") = Ok None
  ∧ ∃ r st',
      _poll_once Sim.env run_first = (r, st')
      ∧ config st'
        = <["last_known_version" := VersionInfo.str v_2_22_1]> (config run_first)
      ∧ parse_if_set (config st' !! "last_known_version") = Ok (Some v_2_22_1)
      ∧ trace st' = trace run_first
                    ++ [EvGet (check_url_web "None") USER_AGENT; EvSave (config st')]
      ∧ sends (trace st') = sends (trace run_first)
      ∧ r = fst (config_store_save Sim.env (config st') (world st1)).
Proof.
  intros st1.
  assert (Hf : fetch Sim.env run_first
               = (Ok (check_url_web "None", v_2_22_1), st1))
    by (vm_compute; reflexivity).
  assert (Hl : parse_if_set (config run_first !! "last_known_version") = Ok None)
    by (vm_compute; reflexivity).
  split; [exact Hf|]. split; [exact Hl|].
  exact (first_run_adopts_silently Sim.env run_first (check_url_web "None")
           v_2_22_1 st1 Hf Hl).
Defined.

(** The spec's first cycle: afterwards the baseline is "2.22.1" and nothing
    was sent. *)
Example first_cycle :
  let st' := snd (_poll_once Sim.env run_first) in
  config st' !! "last_known_version" = Some "2.22.1" ∧ sends (trace st') = [].
Proof. vm_compute. split; reflexivity. Qed.

Lemma changed_version_updates_baseline_witness :
  let st1 := snd (fetch Sim.env run_downgrade) in
  let thing := thing_of (config run_downgrade !! "platform") in
  fetch Sim.env run_downgrade = (Ok (check_url_web "2.22.5", v_2_22_1), st1)
  ∧ parse_if_set (config run_downgrade !! "last_known_version")
    = Ok (Some v_2_22_5)
  ∧ v_2_22_1 ≠ v_2_22_5
  ∧ ∃ r st' d,
      _poll_once Sim.env run_downgrade = (r, st')
      ∧ config st'
        = <["last_known_version" := VersionInfo.str v_2_22_1]>
            (config run_downgrade)
      ∧ parse_if_set (config st' !! "last_known_version") = Ok (Some v_2_22_1)
      ∧ trace st' = trace run_downgrade
                    ++ EvGet (check_url_web "2.22.5") USER_AGENT
                    :: EvLog Info (info_of thing v_2_22_5 v_2_22_1)
                    :: EvJoinedRooms :: d ++ [EvSave (config st')]
      ∧ (∀ room m, (room, m) ∈ sends d
                   → m = msg_of thing (check_url_web "2.22.5") v_2_22_5 v_2_22_1)
      ∧ (VersionInfo.gtb v_2_22_1 v_2_22_5 = true
         → action_of v_2_22_1 v_2_22_5 = "updated")
      ∧ (VersionInfo.ltb v_2_22_1 v_2_22_5 = true
         → action_of v_2_22_1 v_2_22_5 = "downgraded")
      ∧ (VersionInfo.gtb v_2_22_1 v_2_22_5 = true
         ∨ VersionInfo.ltb v_2_22_1 v_2_22_5 = true).
Proof.
  intros st1 thing.
  assert (Hf : fetch Sim.env run_downgrade
               = (Ok (check_url_web "2.22.5", v_2_22_1), st1))
    by (vm_compute; reflexivity).
  assert (Hl : parse_if_set (config run_downgrade !! "last_known_version")
               = Ok (Some v_2_22_5))
    by (vm_compute; reflexivity).
  assert (Hne : v_2_22_1 ≠ v_2_22_5) by discriminate.
  split; [exact Hf|]. split; [exact Hl|]. split; [exact Hne|].
  exact (changed_version_updates_baseline Sim.env run_downgrade
           (check_url_web "2.22.5") v_2_22_5 v_2_22_1 st1 Hf Hl Hne).
Defined.

(** The spec's change and downgrade cases. *)
Example change_detection :
  let st' := snd (_poll_once Sim.env run_update) in
  config st' !! "last_known_version" = Some "2.22.5"
  ∧ sends (trace st')
    = [ ("!a", "web.whatsapp.com has updated [from 2.22.1](https://web.whatsapp.com/check-update?version=2.22.1&platform=web) to 2.22.5 ðŸŽ‰");
        ("!b", "web.whatsapp.com has updated [from 2.22.1](https://web.whatsapp.com/check-update?version=2.22.1&platform=web) to 2.22.5 ðŸŽ‰") ].
Proof. vm_compute. split; reflexivity. Qed.

Example downgrade_detection :
  let st' := snd (_poll_once Sim.env run_downgrade) in
  config st' !! "last_known_version" = Some "2.22.1"
  ∧ sends (trace st')
    = [ ("!a", "web.whatsapp.com has downgraded [from 2.22.5](https://web.whatsapp.com/check-update?version=2.22.5&platform=web) to 2.22.1 ðŸ¤”") ].
Proof. vm_compute. split; reflexivity. Qed.

(** C1, as stated, fails on this run: there is a baseline, the fetched
    version differs, and the rooms are written to before anything is
    saved. *)
Lemma persist_before_dispatch_counterexample :
  parse_if_set (config run_update !! "last_known_version") = Ok (Some v_2_22_1)
  ∧ fst (fetch Sim.env run_update) = Ok (check_url_web "2.22.1", v_2_22_5)
  ∧ v_2_22_5 ≠ v_2_22_1
  ∧ persisted_before_dispatch (trace (snd (_poll_once Sim.env run_update)))
    = false
  ∧ first_index is_dispatch (trace (snd (_poll_once Sim.env run_update)))
    = Some 2
  ∧ first_index is_save (trace (snd (_poll_once Sim.env run_update)))
    = Some 5.
Proof.
  split; [vm_compute; reflexivity|].
  split; [vm_compute; reflexivity|].
  split; [discriminate|].
  vm_compute. repeat split; reflexivity.
Qed.

Lemma notify_then_persist_witness :
  let st1 := snd (fetch Sim.env run_update) in
  fetch Sim.env run_update = (Ok (check_url_web "2.22.1", v_2_22_5), st1)
  ∧ parse_if_set (config run_update !! "last_known_version")
    = Ok (Some v_2_22_1)
  ∧ v_2_22_5 ≠ v_2_22_1
  ∧ ∃ r st' d,
      _poll_once Sim.env run_update = (r, st')
      ∧ trace st' = trace run_update ++ d ++ [EvSave (config st')]
      ∧ parse_if_set (config st' !! "last_known_version") = Ok (Some v_2_22_5)
      ∧ EvJoinedRooms ∈ d
      ∧ saves d = []
      ∧ persisted_before_dispatch (d ++ [EvSave (config st')]) = false.
Proof.
  intros st1.
  assert (Hf : fetch Sim.env run_update
               = (Ok (check_url_web "2.22.1", v_2_22_5), st1))
    by (vm_compute; reflexivity).
  assert (Hl : parse_if_set (config run_update !! "last_known_version")
               = Ok (Some v_2_22_1))
    by (vm_compute; reflexivity).
  assert (Hne : v_2_22_5 ≠ v_2_22_1) by discriminate.
  split; [exact Hf|]. split; [exact Hl|]. split; [exact Hne|].
  exact (notify_then_persist Sim.env run_update (check_url_web "2.22.1")
           v_2_22_1 v_2_22_5 st1 Hf Hl Hne).
Defined.

(** C7, as stated, fails on this run: the endpoint answers 500, yet the
    body is read, the baseline moves and the room is written to. *)
Lemma non_2xx_counterexample :
  (∃ resp, Sim.answer (world run_500) = Ok resp ∧ is_2xx (status resp) = false)
  ∧ config run_500 !! "last_known_version" = Some "2.22.1"
  ∧ config (snd (poll_cycle Sim.env run_500)) !! "last_known_version"
    = Some "2.22.5"
  ∧ map fst (sends (trace (snd (poll_cycle Sim.env run_500)))) = ["!a"]
  ∧ length (saves (trace (snd (poll_cycle Sim.env run_500)))) = 1.
Proof.
  split; [eexists; split; reflexivity|].
  vm_compute. repeat split; reflexivity.
Qed.

Lemma failed_fetch_is_noop_cycle_witness :
  let st1 := snd (fetch Sim.env run_offline) in
  fetch Sim.env run_offline = (Raise (Exception "ClientConnectorError"), st1)
  ∧ ∃ st',
      poll_cycle Sim.env run_offline = (Ok tt, st')
      ∧ config st' = config run_offline
      ∧ poll_task st' = poll_task run_offline
      ∧ trace st' = trace st1
                    ++ [ EvLog Error "Error polling WhatsApp web version";
                         EvSleep 3600 ]
      ∧ saves (trace st') = saves (trace run_offline)
      ∧ sends (trace st') = sends (trace run_offline)
      ∧ ∀ n, poll Sim.env (S n) run_offline = poll Sim.env n st'.
Proof.
  intros st1.
  assert (Hf : fetch Sim.env run_offline
               = (Raise (Exception "ClientConnectorError"), st1))
    by (vm_compute; reflexivity).
  split; [exact Hf|].
  exact (failed_fetch_is_noop_cycle Sim.env run_offline _ st1 Hf).
Defined.

(** C3, as stated, fails on this run: no platform is configured anywhere,
    and [start] returns with the poll task created. *)
Lemma missing_platform_counterexample :
  Sim.stored (world run_unconfigured) !! "platform" = None
  ∧ (∃ base_cfg, Sim.base_config (world run_unconfigured) = Some base_cfg
                 ∧ base_cfg !! "platform" = None)
  ∧ fst (start Sim.env run_unconfigured) = Ok tt
  ∧ poll_task (snd (start Sim.env run_unconfigured)) = true.
Proof.
  split; [reflexivity|].
  split; [exists ∅; split; reflexivity|].
  vm_compute. split; reflexivity.
Qed.

Lemma start_without_platform_witness :
  let w := world run_unconfigured in
  config_store_load Sim.env w = (Ok ∅, w)
  ∧ config_store_load_base Sim.env w = (Ok (Some ∅), w)
  ∧ config_store_save Sim.env (do_update ∅ ∅) w = (Ok tt, w)
  ∧ (∅ : gmap string string) !! "platform" = None
  ∧ ∃ st',
      start Sim.env run_unconfigured = (Ok tt, st')
      ∧ poll_task st' = true
      ∧ config st' = do_update ∅ ∅
      ∧ platform st' = (Ok None, st').
Proof.
  intros w.
  assert (H1 : config_store_load Sim.env w = (Ok ∅, w)) by reflexivity.
  assert (H2 : config_store_load_base Sim.env w = (Ok (Some ∅), w)) by reflexivity.
  assert (H3 : config_store_save Sim.env (do_update ∅ ∅) w = (Ok tt, w))
    by (vm_compute; reflexivity).
  assert (H4 : (∅ : gmap string string) !! "platform" = None) by reflexivity.
  split; [exact H1|]. split; [exact H2|]. split; [exact H3|]. split; [exact H4|].
  exact (start_without_platform Sim.env run_unconfigured ∅ ∅ w w w H1 H2 H3 H4 H4).
Defined.

(** The run that never names a platform: each cycle ends in the logged
    [TypeError], and no request leaves. *)
Example unconfigured_cycle :
  trace (snd (poll_cycle Sim.env (snd (start Sim.env run_unconfigured))))
  = [ EvSave ∅;
      EvLog Error "Error polling WhatsApp web version";
      EvSleep 3600 ].
Proof. vm_compute. reflexivity. Qed.

Lemma no_baseline_request_witness :
  parse_if_set (config run_first !! "last_known_version") = Ok None
  ∧ config run_first !! "platform" = Some "web"
  ∧ trace (snd (fetch Sim.env run_first))
    = trace run_first
      ++ [ EvGet {| base := "https://web.whatsapp.com/check-update";
                    query := [ ("version", "None"); ("platform", "web") ] |}
                 USER_AGENT ].
Proof.
  assert (Hl : parse_if_set (config run_first !! "last_known_version") = Ok None)
    by (vm_compute; reflexivity).
  assert (Hp : config run_first !! "platform" = Some "web")
    by (vm_compute; reflexivity).
  split; [exact Hl|]. split; [exact Hp|].
  exact (no_baseline_request Sim.env run_first "web" Hl Hp).
Defined.

(** * Further properties of the plugin *)

(** ** Parsing a version and rendering it again *)

Lemma join_split_dot (s : string) :
  match VersionInfo.split_dot s with
  | [] => False
  | h :: t => fold_left (λ acc x, acc +:+ "." +:+ x) t h = s
  end.
Proof.
  assert (G : ∀ (t : list string) (c : ascii) (h : string),
            fold_left (λ acc x, acc +:+ "." +:+ x) t (String c h)
            = String c (fold_left (λ acc x, acc +:+ "." +:+ x) t h)).
  { induction t as [|x t IH]; intros c h; simpl; [reflexivity|]. apply IH. }
  induction s as [|c r IH]; simpl; [reflexivity|].
  destruct (Ascii.eqb_spec c "."%char) as [->|Hc].
  - destruct (VersionInfo.split_dot r) as [|h t]; [contradiction|].
    simpl. change ("" +:+ "." +:+ h) with (String "."%char h).
    rewrite G, IH. reflexivity.
  - destruct (VersionInfo.split_dot r) as [|h t]; [contradiction|].
    rewrite G, IH. reflexivity.
Qed.

Lemma string_append_assoc (a b c : string) :
  (a +:+ b) +:+ c = a +:+ b +:+ c.
Proof.
  induction a as [|ch a IH]; [reflexivity|].
  change (String ch ((a +:+ b) +:+ c) = String ch (a +:+ b +:+ c)).
  f_equal. exact IH.
Qed.

Lemma numeral_parse_numeral (s : string) (n : N) :
  VersionInfo.parse_numeral s = Some n → VersionInfo.numeral n = s.
Proof.
  unfold VersionInfo.parse_numeral, VersionInfo.numeral.
  destruct (NilEmpty.uint_of_string s) as [d|] eqn:Hd; [|discriminate].
  destruct (uint_beq (unorm d) d) eqn:Hn; [|discriminate].
  intros [= <-]. apply internal_uint_dec_bl in Hn.
  rewrite Unsigned.to_of, Hn. apply NilEmpty.sus. exact Hd.
Qed.

Lemma str_parse (s : string) (v : VersionInfo.t) :
  VersionInfo.parse s = Some v → VersionInfo.str v = s.
Proof.
  unfold VersionInfo.parse, VersionInfo.str.
  pose proof (join_split_dot s) as J.
  destruct (VersionInfo.split_dot s) as [|a [|b [|c [|? ?]]]]; try discriminate.
  destruct (VersionInfo.parse_numeral a) as [x|] eqn:Ha; [|discriminate].
  destruct (VersionInfo.parse_numeral b) as [y|] eqn:Hb; [|discriminate].
  destruct (VersionInfo.parse_numeral c) as [z|] eqn:Hc; [|discriminate].
  intros [= <-]. simpl in *.
  rewrite (numeral_parse_numeral _ _ Ha), (numeral_parse_numeral _ _ Hb),
    (numeral_parse_numeral _ _ Hc).
  rewrite <- J, !string_append_assoc. reflexivity.
Qed.

(** ** More on traces *)

Lemma requests_app (a b : list event) : requests (a ++ b) = requests a ++ requests b.
Proof.
  induction a as [|e a IH]; simpl; [reflexivity|].
  destruct e; simpl; rewrite IH; reflexivity.
Qed.

Lemma sleeps_app (a b : list event) : sleeps (a ++ b) = sleeps a ++ sleeps b.
Proof.
  induction a as [|e a IH]; simpl; [reflexivity|].
  destruct e; simpl; rewrite IH; reflexivity.
Qed.

Section Cycle.
Context {W : Type} (env : Env W).

Implicit Types (st : state W) (msg : string) (room : room_id).

(** *** The notification, seen from the cycle *)

(** One room: the step only sends, logs and leaves. *)
Lemma notify_room_quiet msg room st :
  ∃ st' d,
    notify_room env msg room st = (Ok tt, st')
    ∧ config st' = config st
    ∧ poll_task st' = poll_task st
    ∧ trace st' = trace st ++ d
    ∧ saves d = [] ∧ requests d = [] ∧ sleeps d = [].
Proof.
  unfold notify_room, try_except, bind, log, emit, call. simpl.
  destruct (send_markdown env room msg (world st)) as [[[]|[m|c]] w1]; simpl.
  - eexists _, [_]. repeat split; reflexivity.
  - destruct (leave_room env room w1) as [[[]|e] w2]; simpl.
    + eexists _, [_; _; _]. simpl. rewrite <- !app_assoc. repeat split; reflexivity.
    + eexists _, [_; _; _; _]. simpl. rewrite <- !app_assoc. repeat split; reflexivity.
  - eexists _, [_; _]. simpl. rewrite <- !app_assoc. repeat split; reflexivity.
Qed.

Lemma for_rooms_quiet msg (rooms : list room_id) st :
  ∃ st' d,
    for_rooms env msg rooms st = (Ok tt, st')
    ∧ config st' = config st
    ∧ poll_task st' = poll_task st
    ∧ trace st' = trace st ++ d
    ∧ saves d = [] ∧ requests d = [] ∧ sleeps d = [].
Proof.
  revert st. induction rooms as [|room rest IH]; intros st; simpl.
  - exists st, []. rewrite app_nil_r. repeat split; reflexivity.
  - destruct (notify_room_quiet msg room st)
      as (st1 & d1 & E1 & C1 & T1 & Tr1 & V1 & R1 & S1).
    destruct (IH st1) as (st2 & d2 & E2 & C2 & T2 & Tr2 & V2 & R2 & S2).
    exists st2, (d1 ++ d2).
    rewrite (bind_ok _ _ _ _ _ E1), E2.
    rewrite saves_app, requests_app, sleeps_app, V1, V2, R1, R2, S1, S2.
    repeat split; try congruence.
    rewrite Tr2, Tr1, <- app_assoc. reflexivity.
Qed.

Lemma notify_change_quiet (u : URL) (old_version new_version : VersionInfo.t) st :
  ∃ r st' d,
    _notify_change env u old_version new_version st = (r, st')
    ∧ config st' = config st
    ∧ poll_task st' = poll_task st
    ∧ trace st' = trace st ++ d
    ∧ saves d = [] ∧ requests d = [] ∧ sleeps d = [].
Proof.
  unfold _notify_change.
  rewrite (bind_ok _ _ _ _ _ (platform_run st)).
  unfold bind at 1. unfold log, emit at 1. simpl.
  unfold bind at 1. unfold bind at 1. unfold emit at 1, call at 1. simpl.
  destruct (get_joined_rooms env (world st)) as [[rooms|e] w1]; simpl.
  - match goal with |- context [for_rooms env ?m rooms ?s] =>
      destruct (for_rooms_quiet m rooms s)
        as (st2 & d & E & C & T & Tr & V & R & S)
    end.
    eexists (Ok tt), st2, (EvLog Info _ :: EvJoinedRooms :: d).
    rewrite E. simpl in *.
    repeat split; try assumption.
    rewrite Tr, <- !app_assoc. reflexivity.
  - eexists (Raise e), _, [_; _]. simpl. rewrite <- !app_assoc.
    repeat split; reflexivity.
Qed.

(** With the rooms listed, every one of them is written to. *)
Lemma notify_change_rooms (u : URL) (old_version new_version : VersionInfo.t)
    (rooms : list room_id) (w1 : W) st :
  get_joined_rooms env (world st) = (Ok rooms, w1) →
  ∃ st' d,
    _notify_change env u old_version new_version st = (Ok tt, st')
    ∧ config st' = config st
    ∧ trace st' = trace st ++ d
    ∧ saves d = []
    ∧ sends d
      = map (λ room, (room, msg_of (thing_of (config st !! "platform"))
                                   u old_version new_version)) rooms.
Proof.
  intros Hr. unfold _notify_change.
  rewrite (bind_ok _ _ _ _ _ (platform_run st)).
  unfold bind at 1. unfold log, emit at 1. simpl.
  unfold bind at 1. unfold bind at 1. unfold emit at 1, call at 1. simpl.
  rewrite Hr.
  match goal with |- context [for_rooms env ?m rooms ?s] =>
    destruct (for_rooms_run env m rooms s) as (st2 & d & E & C & T & Tr & S & V)
  end.
  eexists st2, (EvLog Info _ :: EvJoinedRooms :: d). simpl in *.
  split; [exact E|]. rewrite Tr, <- !app_assoc. repeat split; assumption.
Qed.

(** *** The comparison, whatever the baseline *)

Lemma compare_and_update_run (u : URL) (v : VersionInfo.t)
    (lkv : option VersionInfo.t) st :
  parse_if_set (config st !! "last_known_version") = Ok lkv →
  ∃ r st' d,
    compare_and_update env u v st = (r, st')
    ∧ poll_task st' = poll_task st
    ∧ trace st' = trace st ++ d
    ∧ requests d = [] ∧ sleeps d = []
    ∧ (length (saves d) ≤ 1)%nat
    ∧ (∀ k, k ≠ "last_known_version" → config st' !! k = config st !! k)
    ∧ parse_if_set (config st' !! "last_known_version") = Ok (Some v).
Proof.
  intros Hl. destruct lkv as [b|].
  - destruct (VersionInfo.neqb v b) eqn:Hvb.
    + apply neqb_true_iff in Hvb.
      unfold compare_and_update, changed, try_except, set_last_known_version,
        config_save, bind, last_known_version, get_config, set_config, lift, ret.
      simpl. repeat (rewrite Hl; simpl).
      rewrite (proj2 (neqb_true_iff v b) Hvb). repeat (rewrite Hl; simpl).
      destruct (notify_change_quiet u b v st)
        as (r & st2 & d & E & C & T & Tr & V & R & S).
      rewrite E.
      destruct r as [[]|e]; unfold log, emit, call; simpl; rewrite C;
        destruct (config_store_save env _ (world st2)) as [r' w'].
      * eexists r', _, (d ++ [EvSave _]). split; [reflexivity|]. simpl.
        rewrite Tr, <- !app_assoc, requests_app, sleeps_app, saves_app, V, R, S.
        simpl. rewrite parse_if_set_str.
        repeat split; try done.
        intros k Hk. rewrite lookup_insert_ne by done. reflexivity.
      * eexists r', _, (d ++ [EvLog Error _; EvSave _]).
        split; [reflexivity|]. simpl.
        rewrite Tr, <- !app_assoc, requests_app, sleeps_app, saves_app, V, R, S.
        simpl. rewrite parse_if_set_str.
        repeat split; try done.
        intros k Hk. rewrite lookup_insert_ne by done. reflexivity.
    + apply neqb_false_iff in Hvb. subst v.
      rewrite compare_and_update_same by exact Hl.
      exists (Ok tt), st, []. rewrite app_nil_r. simpl.
      repeat split; try done; lia.
  - rewrite compare_and_update_first by exact Hl.
    eexists _, _, [EvSave _]. split; [reflexivity|]. simpl.
    rewrite parse_if_set_str.
    repeat split; try done.
    intros k Hk. rewrite lookup_insert_ne by done. reflexivity.
Qed.

(** *** The cycle, whatever happens *)

Lemma poll_once_run st :
  ∃ r st' d,
    _poll_once env st = (r, st')
    ∧ poll_task st' = poll_task st
    ∧ trace st' = trace st ++ d
    ∧ (length (requests d) ≤ 1)%nat
    ∧ sleeps d = []
    ∧ (length (saves d) ≤ 1)%nat
    ∧ (∀ k, k ≠ "last_known_version" → config st' !! k = config st !! k).
Proof.
  destruct (fetch env st) as [[[u v]|e] st1] eqn:Hf.
  - rewrite (poll_once_after_fetch env _ _ _ _ Hf).
    destruct (fetch_ok_inv env _ _ _ _ Hf)
      as (lkv & p & resp & w1 & data & cv & Hl & _ & _ & _ & _ & _ & _ & ->).
    destruct (compare_and_update_run u v lkv
                {| config := config st; poll_task := poll_task st; world := w1;
                   trace := trace st ++ [EvGet u USER_AGENT] |} Hl)
      as (r & st' & d & E & T & Tr & R & S & V & K & _).
    simpl in *. exists r, st', (EvGet u USER_AGENT :: d).
    rewrite E, Tr, <- app_assoc. simpl. rewrite R.
    repeat split; try done; simpl; lia.
  - unfold _poll_once. rewrite (bind_raise _ _ _ _ _ Hf).
    destruct (fetch_raise_inv env _ _ _ Hf) as (C & T & [Tr|[u0 Tr]]).
    + exists (Raise e), st1, []. rewrite app_nil_r, C. simpl.
      repeat split; try done; lia.
    + exists (Raise e), st1, [EvGet u0 USER_AGENT]. rewrite C. simpl.
      repeat split; try done; lia.
Qed.
(** A version other than the baseline, or a first version: the cycle ends
    with the save, and returns what the save returns. *)
Lemma compare_and_update_saves (u : URL) (v : VersionInfo.t)
    (lkv : option VersionInfo.t) st :
  parse_if_set (config st !! "last_known_version") = Ok lkv →
  lkv ≠ Some v →
  let cfg' := <["last_known_version" := VersionInfo.str v]> (config st) in
  ∃ (w : W) d,
    compare_and_update env u v st
    = (fst (config_store_save env cfg' w),
       {| config := cfg'; poll_task := poll_task st;
          world := snd (config_store_save env cfg' w);
          trace := trace st ++ d ++ [EvSave cfg'] |})
    ∧ saves d = [] ∧ requests d = [] ∧ sleeps d = [].
Proof.
  intros Hl Hne cfg'. destruct lkv as [b|].
  - assert (Hvb : v ≠ b) by congruence.
    unfold compare_and_update, changed, try_except, set_last_known_version,
      config_save, bind, last_known_version, get_config, set_config, lift, ret.
    simpl. repeat (rewrite Hl; simpl).
    rewrite (proj2 (neqb_true_iff v b) Hvb). repeat (rewrite Hl; simpl).
    destruct (notify_change_quiet u b v st)
      as (r & st2 & d & E & C & T & Tr & V & R & S).
    rewrite E.
    destruct r as [[]|e]; unfold log, emit, call; simpl; rewrite C; fold cfg';
      destruct (config_store_save env cfg' (world st2)) as [r' w'] eqn:Hs.
    + exists (world st2), d. rewrite Hs, Tr, T, <- !app_assoc. simpl.
      repeat split; assumption.
    + exists (world st2), (d ++ [EvLog Error "Error notifying rooms about WhatsApp web update"]).
      rewrite Hs, Tr, T, <- !app_assoc, saves_app, requests_app, sleeps_app, V, R, S.
      simpl. repeat split; reflexivity.
  - rewrite compare_and_update_first by exact Hl. fold cfg'.
    exists (world st), []. simpl. repeat split; reflexivity.
Qed.

Lemma poll_cycle_after_poll_once st (r : result unit) st' :
  _poll_once env st = (r, st') →
  poll_cycle env st
  = (Ok tt,
     {| config := config st'; poll_task := poll_task st'; world := world st';
        trace := trace st'
                 ++ match r with
                    | Ok _ => [EvSleep 3600]
                    | Raise _ => failed_turn
                    end |}).
Proof.
  intros H. unfold poll_cycle, try_except, bind, log, emit. rewrite H.
  destruct r as [[]|e]; simpl; [|rewrite <- app_assoc]; reflexivity.
Qed.

Lemma poll_cycle_run st :
  ∃ st' d,
    poll_cycle env st = (Ok tt, st')
    ∧ poll_task st' = poll_task st
    ∧ trace st' = trace st ++ d
    ∧ (length (requests d) ≤ 1)%nat
    ∧ sleeps d = [3600%N]
    ∧ (length (saves d) ≤ 1)%nat
    ∧ (∀ k, k ≠ "last_known_version" → config st' !! k = config st !! k).
Proof.
  destruct (poll_once_run st) as (r & st1 & d & E & T & Tr & R & S & V & K).
  rewrite (poll_cycle_after_poll_once _ _ _ E).
  destruct r as [[]|e].
  - eexists _, (d ++ [EvSleep 3600]). split; [reflexivity|]. simpl.
    rewrite Tr, <- app_assoc, requests_app, sleeps_app, saves_app, S.
    simpl. rewrite !app_nil_r. repeat split; done.
  - eexists _, (d ++ failed_turn). split; [reflexivity|]. simpl.
    rewrite Tr, <- app_assoc, requests_app, sleeps_app, saves_app, S.
    simpl. rewrite !app_nil_r. repeat split; done.
Qed.

(** A cycle that fails before its request changes nothing and can be
    repeated forever. *)
Lemma stalled_poll st :
  (∃ e, fetch env st = (Raise e, st)) →
  ∀ n,
    poll env n st
    = (Ok tt,
       {| config := config st; poll_task := poll_task st; world := world st;
          trace := trace st ++ concat (replicate n failed_turn) |}).
Proof.
  intros [e Hf] n.
  assert (G : ∀ tr,
            poll env n {| config := config st; poll_task := poll_task st;
                          world := world st; trace := tr |}
            = (Ok tt,
               {| config := config st; poll_task := poll_task st;
                  world := world st;
                  trace := tr ++ concat (replicate n failed_turn) |})).
  { induction n as [|n IH]; intros tr; simpl.
    - rewrite app_nil_r. reflexivity.
    - assert (Hf' : fetch env {| config := config st; poll_task := poll_task st;
                                 world := world st; trace := tr |}
                    = (Raise e, {| config := config st; poll_task := poll_task st;
                                   world := world st; trace := tr |})).
      { revert Hf.
        unfold fetch, bind, last_known_version, platform, get_config, lift, ret,
          emit, call, with_query. simpl.
        destruct (parse_if_set (config st !! "last_known_version")) as [lkv|e0];
          [|intros [= <-]; reflexivity].
        destruct (config st !! "platform") as [p|];
          [|intros [= <-]; reflexivity]. simpl.
        match goal with |- context [http_get env ?u0 _ _] => set (u' := u0) end.
        assert (A : ∀ (r : result (URL * VersionInfo.t)) (w1 : W),
                  (r, {| config := config st; poll_task := poll_task st;
                         world := w1;
                         trace := trace st ++ [EvGet u' USER_AGENT] |})
                  = (Raise e, st) → False).
        { intros r w1 [= _ Ht]. apply (f_equal trace) in Ht. simpl in Ht.
          apply (f_equal length) in Ht. rewrite length_app in Ht.
          simpl in Ht. lia. }
        destruct (http_get env u' USER_AGENT (world st)) as [[resp|e0] w1];
          [|intros Ht; destruct (A _ _ Ht)].
        destruct (body_json resp) as [data|e0];
          [|intros Ht; destruct (A _ _ Ht)].
        destruct (subscript data "currentVersion") as [cv|e0];
          [|intros Ht; destruct (A _ _ Ht)].
        destruct (parse_json cv) as [v'|e0];
          [discriminate|intros Ht; destruct (A _ _ Ht)]. }
      assert (Hp : _poll_once env {| config := config st; poll_task := poll_task st;
                                     world := world st; trace := tr |}
                   = (Raise e, {| config := config st; poll_task := poll_task st;
                                  world := world st; trace := tr |})).
      { unfold _poll_once. rewrite (bind_raise _ _ _ _ _ Hf'). reflexivity. }
      rewrite (bind_ok _ _ _ _ _ (poll_cycle_after_poll_once _ _ _ Hp)).
      simpl. rewrite IH, <- !app_assoc. reflexivity. }
  destruct st as [c t w tr]. apply G.
Qed.
(** ** Properties *)

(** X1: whatever the endpoint, the rooms and the store do, one run of
    [_poll_once] sends at most one request, saves at most once, never
    sleeps, leaves the poll task alone and changes no configuration key
    other than [last_known_version]. *)
Theorem cycle_frame st :
  let st' := snd (_poll_once env st) in
  poll_task st' = poll_task st
  ∧ (∀ k, k ≠ "last_known_version" → config st' !! k = config st !! k)
  ∧ ∃ d,
      trace st' = trace st ++ d
      ∧ (length (requests d) ≤ 1)%nat
      ∧ (length (saves d) ≤ 1)%nat
      ∧ sleeps d = [].
Proof.
  destruct (poll_once_run st) as (r & st1 & d & E & T & Tr & R & S & V & K).
  simpl. rewrite E. simpl.
  split; [exact T|]. split; [exact K|].
  exists d. repeat split; assumption.
Qed.

(** X2: the loop cannot be stopped from inside.  Whatever happens in its
    cycles, [n] turns of [poll] return normally after exactly [n] sleeps of
    one hour, with at most [n] requests and [n] saves, the task flag and
    every key but [last_known_version] untouched. *)
Theorem poll_keeps_going (n : nat) st :
  ∃ st' d,
    poll env n st = (Ok tt, st')
    ∧ poll_task st' = poll_task st
    ∧ (∀ k, k ≠ "last_known_version" → config st' !! k = config st !! k)
    ∧ trace st' = trace st ++ d
    ∧ sleeps d = replicate n 3600%N
    ∧ (length (requests d) ≤ n)%nat
    ∧ (length (saves d) ≤ n)%nat.
Proof.
  revert st. induction n as [|n IH]; intros st; simpl.
  - exists st, []. rewrite app_nil_r. repeat split; done.
  - destruct (poll_cycle_run st) as (st1 & d1 & E1 & T1 & Tr1 & R1 & S1 & V1 & K1).
    destruct (IH st1) as (st2 & d2 & E2 & T2 & K2 & Tr2 & S2 & R2 & V2).
    exists st2, (d1 ++ d2). rewrite (bind_ok _ _ _ _ _ E1), E2.
    rewrite sleeps_app, requests_app, saves_app, !length_app, S1, S2.
    repeat split; try congruence; try lia.
    + intros k Hk. rewrite (K2 k Hk). apply K1, Hk.
    + rewrite Tr2, Tr1, <- app_assoc. reflexivity.
Qed.

(** X3: a stored baseline that is not empty and does not parse as a version
    stalls the plugin: every cycle ends in the logged [ValueError] before
    any request, nothing is saved or sent, and nothing ever repairs it. *)
Theorem garbled_baseline_stalls st (s : string) :
  config st !! "last_known_version" = Some s →
  s ≠ "" →
  VersionInfo.parse s = None →
  ∀ n,
    poll env n st
    = (Ok tt,
       {| config := config st; poll_task := poll_task st; world := world st;
          trace := trace st ++ concat (replicate n failed_turn) |}).
Proof.
  intros Hs Hne Hp. apply stalled_poll. exists ValueError.
  unfold fetch, bind, last_known_version, get_config, lift. simpl.
  rewrite Hs. simpl.
  rewrite (proj2 (String.eqb_neq s "") Hne), Hp. reflexivity.
Qed.

(** X4: without a [platform] no request can be built: every cycle ends in a
    logged error before any request, and the loop goes on like that. *)
Theorem missing_platform_stalls st :
  config st !! "platform" = None →
  ∀ n,
    poll env n st
    = (Ok tt,
       {| config := config st; poll_task := poll_task st; world := world st;
          trace := trace st ++ concat (replicate n failed_turn) |}).
Proof.
  intros Hp. apply stalled_poll.
  unfold fetch, bind, last_known_version, platform, get_config, lift, ret,
    with_query. simpl.
  rewrite Hp.
  destruct (parse_if_set (config st !! "last_known_version")) as [lkv|e];
    simpl; eauto.
Qed.

(** X5: a delivery that succeeds or fails for any reason other than
    [MForbidden] never makes the plugin leave the room: the step sends,
    logs the failure if there is one, and goes on. *)
Theorem other_outcome_keeps_room st msg room (r : result unit) (w1 : W) :
  send_markdown env room msg (world st) = (r, w1) →
  (∀ message, r ≠ Raise (MForbidden message)) →
  ∃ st',
    notify_room env msg room st = (Ok tt, st')
    ∧ config st' = config st
    ∧ world st' = w1
    ∧ trace st'
      = trace st
        ++ EvSend room msg
        :: match r with
           | Ok _ => []
           | Raise _ => [ EvLog Error ("Failed to notify " +:+ room
                                       +:+ " about update") ]
           end
    ∧ leaves (trace st') = leaves (trace st).
Proof.
  intros Hs Hr.
  unfold notify_room, try_except, bind, log, emit, call. simpl.
  rewrite Hs. destruct r as [[]|[m|c]]; simpl.
  - eexists. split; [reflexivity|]. simpl.
    rewrite leaves_app. simpl. rewrite app_nil_r. repeat split; reflexivity.
  - destruct (Hr m eq_refl).
  - eexists. split; [reflexivity|]. simpl.
    rewrite <- !app_assoc, leaves_app. simpl. rewrite app_nil_r.
    repeat split; reflexivity.
Qed.

(** The comparison when the rooms cannot be listed, and when they can. *)
Lemma compare_and_update_no_rooms (u : URL) (b v : VersionInfo.t) st
    (e : exn) (w2 : W) :
  parse_if_set (config st !! "last_known_version") = Ok (Some b) →
  v ≠ b →
  get_joined_rooms env (world st) = (Raise e, w2) →
  let cfg' := <["last_known_version" := VersionInfo.str v]> (config st) in
  compare_and_update env u v st
  = (fst (config_store_save env cfg' w2),
     {| config := cfg'; poll_task := poll_task st;
        world := snd (config_store_save env cfg' w2);
        trace := trace st
                 ++ [ EvLog Info (info_of (thing_of (config st !! "platform")) b v);
                      EvJoinedRooms;
                      EvLog Error "Error notifying rooms about WhatsApp web update";
                      EvSave cfg' ] |}).
Proof.
  intros Hl Hne Hr cfg'.
  unfold compare_and_update, changed, try_except, set_last_known_version,
    config_save, _notify_change, platform, log, emit, call, bind,
    last_known_version, get_config, set_config, lift, ret.
  simpl. repeat (rewrite Hl; simpl).
  rewrite (proj2 (neqb_true_iff v b) Hne). repeat (rewrite Hl; simpl).
  rewrite Hr. simpl. fold cfg'.
  destruct (config_store_save env cfg' w2) as [r' w']. simpl.
  rewrite <- !app_assoc. reflexivity.
Qed.

Lemma compare_and_update_rooms (u : URL) (b v : VersionInfo.t) st
    (rooms : list room_id) (w2 : W) :
  parse_if_set (config st !! "last_known_version") = Ok (Some b) →
  v ≠ b →
  get_joined_rooms env (world st) = (Ok rooms, w2) →
  ∃ d,
    trace (snd (compare_and_update env u v st)) = trace st ++ d
    ∧ sends d
      = map (λ room, (room, msg_of (thing_of (config st !! "platform")) u b v))
            rooms
    ∧ saves d = [<["last_known_version" := VersionInfo.str v]> (config st)].
Proof.
  intros Hl Hne Hr.
  unfold compare_and_update, changed, try_except, set_last_known_version,
    config_save, bind, last_known_version, get_config, set_config, lift, ret.
  simpl. repeat (rewrite Hl; simpl).
  rewrite (proj2 (neqb_true_iff v b) Hne). repeat (rewrite Hl; simpl).
  destruct (notify_change_rooms u b v rooms w2 st Hr)
    as (st2 & d & E & C & Tr & V & S).
  rewrite E. unfold emit, call. simpl. rewrite C.
  destruct (config_store_save env _ (world st2)) as [r' w']. simpl.
  exists (d ++ [EvSave (<["last_known_version" := VersionInfo.str v]> (config st))]).
  rewrite Tr, <- !app_assoc.
  rewrite sends_app, saves_app, V, S. simpl. rewrite app_nil_r.
  repeat split; reflexivity.
Qed.

(** X6: when the rooms cannot be listed, the change is announced nowhere,
    the failure is logged, and the new version is stored and saved all the
    same: that change will not be announced later either. *)
Theorem room_listing_failure_still_updates st (u : URL) (b v : VersionInfo.t)
    st1 (e : exn) (w2 : W) :
  fetch env st = (Ok (u, v), st1) →
  parse_if_set (config st !! "last_known_version") = Ok (Some b) →
  v ≠ b →
  get_joined_rooms env (world st1) = (Raise e, w2) →
  let cfg' := <["last_known_version" := VersionInfo.str v]> (config st) in
  _poll_once env st
  = (fst (config_store_save env cfg' w2),
     {| config := cfg'; poll_task := poll_task st;
        world := snd (config_store_save env cfg' w2);
        trace := trace st
                 ++ [ EvGet u USER_AGENT;
                      EvLog Info (info_of (thing_of (config st !! "platform")) b v);
                      EvJoinedRooms;
                      EvLog Error "Error notifying rooms about WhatsApp web update";
                      EvSave cfg' ] |}).
Proof.
  intros Hf Hl Hne Hr cfg'.
  rewrite (poll_once_after_fetch env _ _ _ _ Hf).
  destruct (fetch_ok_inv env _ _ _ _ Hf)
    as (lkv & p & resp & w1 & data & cv & _ & _ & _ & _ & _ & _ & _ & ->).
  rewrite (compare_and_update_no_rooms u b v
             {| config := config st; poll_task := poll_task st; world := w1;
                 trace := trace st ++ [EvGet u USER_AGENT] |}
             e w2 Hl Hne Hr). simpl.
  fold cfg'. rewrite <- !app_assoc. reflexivity.
Qed.

(** X7: when a new version is seen and the rooms are listed, the cycle
    makes exactly one delivery attempt per joined room, in order, all with
    the same message, and saves the new baseline exactly once; with no room
    joined it just saves. *)
Theorem changed_version_notifies_every_room st (u : URL) (b v : VersionInfo.t)
    st1 (rooms : list room_id) (w2 : W) :
  fetch env st = (Ok (u, v), st1) →
  parse_if_set (config st !! "last_known_version") = Ok (Some b) →
  v ≠ b →
  get_joined_rooms env (world st1) = (Ok rooms, w2) →
  ∃ d,
    trace (snd (_poll_once env st)) = trace st ++ d
    ∧ sends d
      = map (λ room, (room, msg_of (thing_of (config st !! "platform")) u b v))
            rooms
    ∧ saves d = [<["last_known_version" := VersionInfo.str v]> (config st)].
Proof.
  intros Hf Hl Hne Hr.
  rewrite (poll_once_after_fetch env _ _ _ _ Hf).
  destruct (fetch_ok_inv env _ _ _ _ Hf)
    as (lkv & p & resp & w1 & data & cv & _ & _ & _ & _ & _ & _ & _ & ->).
  destruct (compare_and_update_rooms u b v
              {| config := config st; poll_task := poll_task st; world := w1;
                 trace := trace st ++ [EvGet u USER_AGENT] |}
              rooms w2 Hl Hne Hr)
    as (d & Tr & S & V).
  simpl in *. exists (EvGet u USER_AGENT :: d).
  rewrite Tr, <- app_assoc. simpl. repeat split; assumption.
Qed.
Lemma poll_cycle_baseline st (u : URL) (v : VersionInfo.t) st1 :
  fetch env st = (Ok (u, v), st1) →
  parse_if_set (config (snd (poll_cycle env st)) !! "last_known_version")
  = Ok (Some v).
Proof.
  intros Hf.
  destruct (_poll_once env st) as [r st'] eqn:E.
  rewrite (poll_cycle_after_poll_once _ _ _ E). simpl.
  rewrite (poll_once_after_fetch env _ _ _ _ Hf) in E.
  destruct (fetch_ok_inv env _ _ _ _ Hf)
    as (lkv & p & resp & w1 & data & cv & Hl & _ & _ & _ & _ & _ & _ & ->).
  destruct (compare_and_update_run u v lkv
              {| config := config st; poll_task := poll_task st; world := w1;
                 trace := trace st ++ [EvGet u USER_AGENT] |} Hl)
    as (r0 & st0 & d & E0 & _ & _ & _ & _ & _ & _ & P).
  rewrite E in E0. injection E0 as -> ->. exact P.
Qed.

(** X8: when the store cannot write, a cycle that adopts a version still
    ends normally: the in-memory baseline is the new version, the failed
    save is the last thing tried, the loop logs it and sleeps. *)
Theorem failed_save_is_logged st (u : URL) (v : VersionInfo.t) st1
    (lkv : option VersionInfo.t) :
  fetch env st = (Ok (u, v), st1) →
  parse_if_set (config st !! "last_known_version") = Ok lkv →
  lkv ≠ Some v →
  (∀ cfg w, ∃ e, fst (config_store_save env cfg w) = Raise e) →
  ∃ st' d,
    poll_cycle env st = (Ok tt, st')
    ∧ parse_if_set (config st' !! "last_known_version") = Ok (Some v)
    ∧ trace st' = trace st
                  ++ d
                  ++ [ EvSave (config st');
                       EvLog Error "Error polling WhatsApp web version";
                       EvSleep 3600 ]
    ∧ saves d = [].
Proof.
  intros Hf Hl Hne Hro.
  destruct (fetch_ok_inv env _ _ _ _ Hf)
    as (lkv' & p & resp & w1 & data & cv & Hl' & _ & _ & _ & _ & _ & _ & ->).
  destruct (compare_and_update_saves u v lkv
              {| config := config st; poll_task := poll_task st; world := w1;
                 trace := trace st ++ [EvGet u USER_AGENT] |} Hl Hne)
    as (w & d & E & V & _ & _).
  simpl in E.
  destruct (Hro (<["last_known_version" := VersionInfo.str v]> (config st)) w)
    as [e He].
  rewrite He in E. rewrite <- (poll_once_after_fetch env _ _ _ _ Hf) in E.
  rewrite (poll_cycle_after_poll_once _ _ _ E). simpl.
  eexists _, (EvGet u USER_AGENT :: d). split; [reflexivity|]. simpl.
  rewrite parse_if_set_str, <- !app_assoc. simpl. rewrite <- ?app_assoc.
  repeat split; try reflexivity. exact V.
Qed.

(** X9: after any cycle whose fetch returned [v], the in-memory baseline is
    [v] (first adoption, change, or no change, and whether or not the save
    went through) and no other key has moved. *)
Theorem baseline_after_cycle st (u : URL) (v : VersionInfo.t) st1 :
  fetch env st = (Ok (u, v), st1) →
  let st' := snd (poll_cycle env st) in
  parse_if_set (config st' !! "last_known_version") = Ok (Some v)
  ∧ ∀ k, k ≠ "last_known_version" → config st' !! k = config st !! k.
Proof.
  intros Hf. simpl. split; [exact (poll_cycle_baseline _ _ _ _ Hf)|].
  destruct (poll_cycle_run st) as (st' & d & E & _ & _ & _ & _ & _ & K).
  rewrite E. exact K.
Qed.

(** X10: a version is announced once.  If the cycle after one that fetched
    [v] fetches [v] again, it asks with [v] as its [version] parameter and
    then only sleeps: nothing is sent, saved or logged. *)
Theorem repeated_version_is_quiet st (u u' : URL) (v : VersionInfo.t) st1 st2 :
  fetch env st = (Ok (u, v), st1) →
  let st' := snd (poll_cycle env st) in
  fetch env st' = (Ok (u', v), st2) →
  poll_cycle env st'
  = (Ok tt,
     {| config := config st'; poll_task := poll_task st'; world := world st2;
        trace := trace st' ++ [EvGet u' USER_AGENT; EvSleep 3600] |})
  ∧ ∃ p, query u' = [ ("version", VersionInfo.str v); ("platform", p) ].
Proof.
  intros Hf st' Hf'.
  pose proof (poll_cycle_baseline _ _ _ _ Hf) as Hb. fold st' in Hb.
  destruct (fetch_ok_inv env _ _ _ _ Hf')
    as (lkv & p & resp & w1 & data & cv & Hl & _ & Hu & _ & _ & _ & _ & Hst).
  rewrite Hb in Hl. injection Hl as <-.
  split.
  - assert (E : _poll_once env st' = (Ok tt, st2)).
    { rewrite (poll_once_after_fetch env _ _ _ _ Hf').
      apply compare_and_update_same. subst st2. exact Hb. }
    rewrite (poll_cycle_after_poll_once _ _ _ E). subst st2. simpl.
    rewrite <- app_assoc. reflexivity.
  - exists p. subst u'. simpl. unfold py_or. rewrite str_not_empty. reflexivity.
Qed.

(** X11: with a baseline, the request carries exactly the stored version
    text as its [version] parameter, next to the configured platform. *)
Theorem baseline_request st (s p : string) (b : VersionInfo.t) :
  config st !! "last_known_version" = Some s →
  VersionInfo.parse s = Some b →
  config st !! "platform" = Some p →
  trace (snd (fetch env st))
  = trace st
    ++ [ EvGet {| base := "https://web.whatsapp.com/check-update";
                  query := [ ("version", s); ("platform", p) ] |}
               USER_AGENT ].
Proof.
  intros Hs Hb Hp.
  assert (Hl : parse_if_set (config st !! "last_known_version") = Ok (Some b)).
  { rewrite Hs. unfold parse_if_set.
    destruct (String.eqb_spec s "") as [->|_]; [discriminate|].
    rewrite Hb. reflexivity. }
  destruct (http_get env
              {| base := base url;
                 query := [ ("version", py_or (py_str (Some b)) "2.2222.11");
                            ("platform", p) ] |}
              USER_AGENT (world st)) as [r w1] eqn:Hg.
  rewrite (fetch_request env st (Some b) p r w1 Hl Hp Hg). simpl.
  unfold py_or. rewrite str_not_empty, (str_parse _ _ Hb). reflexivity.
Qed.

Lemma load_and_update_poll_task st :
  poll_task (snd (load_and_update env st)) = poll_task st.
Proof.
  unfold load_and_update, config_save, bind, call, get_config, set_config,
    emit, raise. simpl.
  destruct (config_store_load env (world st)) as [[data|e] w1]; simpl;
    [|reflexivity].
  destruct (config_store_load_base env w1) as [[[b|]|e] w2]; simpl;
    try reflexivity.
  destruct (config_store_save env _ w2) as [r w3]. destruct r; reflexivity.
Qed.

(** X12: [start] creates the poll task only after the configuration has
    been loaded: if loading raises, [start] raises the same exception and
    no task is created. *)
Theorem start_needs_configuration st (e : exn) st1 :
  load_and_update env st = (Raise e, st1) →
  start env st = (Raise e, st1) ∧ poll_task st1 = poll_task st.
Proof.
  intros H. split.
  - unfold start. apply bind_raise. exact H.
  - pose proof (load_and_update_poll_task st) as P. rewrite H in P. exact P.
Qed.
End Cycle.

(** X13: [do_update] carries over exactly the two recognised keys: for
    [platform] and [last_known_version] the stored value wins and the base
    value is the fallback; every other key is the base's, whatever the
    store holds under it. *)
Theorem do_update_lookup (source base_cfg : gmap string string) (k : string) :
  do_update source base_cfg !! k
  = if bool_decide (k = "platform" ∨ k = "last_known_version")
    then match source !! k with
         | Some v => Some v
         | None => base_cfg !! k
         end
    else base_cfg !! k.
Proof.
  unfold do_update, copy.
  destruct (decide (k = "platform")) as [->|Hp].
  - rewrite bool_decide_eq_true_2 by (left; reflexivity).
    destruct (source !! "platform") as [v|]; [apply lookup_insert_eq|].
    destruct (source !! "last_known_version") as [v|]; [|reflexivity].
    apply lookup_insert_ne. discriminate.
  - destruct (decide (k = "last_known_version")) as [->|Hv].
    + rewrite bool_decide_eq_true_2 by (right; reflexivity).
      destruct (source !! "platform") as [v|];
        [rewrite lookup_insert_ne by discriminate|];
        (destruct (source !! "last_known_version") as [v'|];
         [apply lookup_insert_eq|reflexivity]).
    + rewrite bool_decide_eq_false_2 by (intros [|]; contradiction).
      destruct (source !! "platform") as [v|];
        [rewrite lookup_insert_ne by congruence|];
        (destruct (source !! "last_known_version") as [v'|];
         [apply lookup_insert_ne; congruence|reflexivity]).
Qed.

(** X14: a platform that is absent or not one of the six known selectors
    gets the fallback label. *)
Theorem unknown_platform_label (platform : option string) :
  (∀ p, platform = Some p → p ∉ known_platforms) →
  thing_of platform = "unknown WhatsApp web platform".
Proof.
  intros H. destruct platform as [p|]; [|reflexivity].
  change (thing_of (Some p))
    with (default "unknown WhatsApp web platform" (thing_table !! p)).
  unfold thing_table.
  rewrite (not_elem_of_list_to_map_1 (M := gmap string)); [reflexivity|].
  exact (H p eq_refl).
Qed.

(** ** The further properties on sample runs *)

Lemma garbled_baseline_stalls_witness :
  config run_garbled !! "last_known_version" = Some "latest"
  ∧ "latest" ≠ ""
  ∧ VersionInfo.parse "latest" = None
  ∧ ∀ n,
      poll Sim.env n run_garbled
      = (Ok tt,
         {| config := config run_garbled; poll_task := poll_task run_garbled;
            world := world run_garbled;
            trace := trace run_garbled ++ concat (replicate n failed_turn) |}).
Proof.
  assert (H1 : config run_garbled !! "last_known_version" = Some "latest")
    by (vm_compute; reflexivity).
  assert (H2 : "latest" ≠ "") by discriminate.
  assert (H3 : VersionInfo.parse "latest" = None) by reflexivity.
  split; [exact H1|]. split; [exact H2|]. split; [exact H3|].
  exact (garbled_baseline_stalls Sim.env run_garbled "latest" H1 H2 H3).
Defined.

Lemma missing_platform_stalls_witness :
  config run_unconfigured !! "platform" = None
  ∧ ∀ n,
      poll Sim.env n run_unconfigured
      = (Ok tt,
         {| config := config run_unconfigured;
            poll_task := poll_task run_unconfigured;
            world := world run_unconfigured;
            trace := trace run_unconfigured ++ concat (replicate n failed_turn) |}).
Proof.
  assert (H1 : config run_unconfigured !! "platform" = None) by reflexivity.
  split; [exact H1|].
  exact (missing_platform_stalls Sim.env run_unconfigured H1).
Defined.

Lemma other_outcome_keeps_room_witness :
  let r : result unit := Raise (Exception "MatrixRequestError") in
  send_markdown Sim.env "!b" "hello" (world run_broken_room)
  = (r, world run_broken_room)
  ∧ (∀ message, r ≠ Raise (MForbidden message))
  ∧ ∃ st',
      notify_room Sim.env "hello" "!b" run_broken_room = (Ok tt, st')
      ∧ config st' = config run_broken_room
      ∧ world st' = world run_broken_room
      ∧ trace st'
        = trace run_broken_room
          ++ EvSend "!b" "hello"
          :: match r with
             | Ok _ => []
             | Raise _ => [ EvLog Error ("Failed to notify " +:+ "!b"
                                         +:+ " about update") ]
             end
      ∧ leaves (trace st') = leaves (trace run_broken_room).
Proof.
  intros r.
  assert (H1 : send_markdown Sim.env "!b" "hello" (world run_broken_room)
               = (r, world run_broken_room)) by reflexivity.
  assert (H2 : ∀ message, r ≠ Raise (MForbidden message)) by discriminate.
  split; [exact H1|]. split; [exact H2|].
  exact (other_outcome_keeps_room Sim.env run_broken_room "hello" "!b" r
           (world run_broken_room) H1 H2).
Defined.

(** A room where sending breaks is skipped, not left; its neighbours get
    the message. *)
Example broken_room_is_kept :
  let r := _notify_change Sim.env (check_url_web "2.22.1") v_2_22_1 v_2_22_5
             run_broken_room in
  fst r = Ok tt
  ∧ map fst (sends (trace (snd r))) = ["!a"; "!b"; "!c"]
  ∧ leaves (trace (snd r)) = []
  ∧ Sim.joined (world (snd r)) = ["!a"; "!b"; "!c"].
Proof. vm_compute. repeat split; reflexivity. Qed.

Lemma room_listing_failure_still_updates_witness :
  let st1 := snd (fetch env_no_rooms run_update) in
  let e := Exception "MatrixConnectionError" in
  let cfg' := <["last_known_version" := VersionInfo.str v_2_22_5]>
                (config run_update) in
  fetch env_no_rooms run_update = (Ok (check_url_web "2.22.1", v_2_22_5), st1)
  ∧ parse_if_set (config run_update !! "last_known_version") = Ok (Some v_2_22_1)
  ∧ v_2_22_5 ≠ v_2_22_1
  ∧ get_joined_rooms env_no_rooms (world st1) = (Raise e, world st1)
  ∧ _poll_once env_no_rooms run_update
    = (fst (config_store_save env_no_rooms cfg' (world st1)),
       {| config := cfg'; poll_task := poll_task run_update;
          world := snd (config_store_save env_no_rooms cfg' (world st1));
          trace := trace run_update
                   ++ [ EvGet (check_url_web "2.22.1") USER_AGENT;
                        EvLog Info (info_of (thing_of (config run_update !! "platform"))
                                            v_2_22_1 v_2_22_5);
                        EvJoinedRooms;
                        EvLog Error "Error notifying rooms about WhatsApp web update";
                        EvSave cfg' ] |}).
Proof.
  intros st1 e cfg'.
  assert (Hf : fetch env_no_rooms run_update
               = (Ok (check_url_web "2.22.1", v_2_22_5), st1))
    by (vm_compute; reflexivity).
  assert (Hl : parse_if_set (config run_update !! "last_known_version")
               = Ok (Some v_2_22_1))
    by (vm_compute; reflexivity).
  assert (Hne : v_2_22_5 ≠ v_2_22_1) by discriminate.
  assert (Hr : get_joined_rooms env_no_rooms (world st1) = (Raise e, world st1))
    by reflexivity.
  split; [exact Hf|]. split; [exact Hl|]. split; [exact Hne|]. split; [exact Hr|].
  exact (room_listing_failure_still_updates env_no_rooms run_update
           (check_url_web "2.22.1") v_2_22_1 v_2_22_5 st1 e (world st1)
           Hf Hl Hne Hr).
Defined.

Lemma changed_version_notifies_every_room_witness :
  let st1 := snd (fetch Sim.env run_update) in
  fetch Sim.env run_update = (Ok (check_url_web "2.22.1", v_2_22_5), st1)
  ∧ parse_if_set (config run_update !! "last_known_version") = Ok (Some v_2_22_1)
  ∧ v_2_22_5 ≠ v_2_22_1
  ∧ get_joined_rooms Sim.env (world st1) = (Ok ["!a"; "!b"], world st1)
  ∧ ∃ d,
      trace (snd (_poll_once Sim.env run_update)) = trace run_update ++ d
      ∧ sends d
        = map (λ room, (room, msg_of (thing_of (config run_update !! "platform"))
                                     (check_url_web "2.22.1") v_2_22_1 v_2_22_5))
              ["!a"; "!b"]
      ∧ saves d
        = [<["last_known_version" := VersionInfo.str v_2_22_5]> (config run_update)].
Proof.
  intros st1.
  assert (Hf : fetch Sim.env run_update
               = (Ok (check_url_web "2.22.1", v_2_22_5), st1))
    by (vm_compute; reflexivity).
  assert (Hl : parse_if_set (config run_update !! "last_known_version")
               = Ok (Some v_2_22_1))
    by (vm_compute; reflexivity).
  assert (Hne : v_2_22_5 ≠ v_2_22_1) by discriminate.
  assert (Hr : get_joined_rooms Sim.env (world st1) = (Ok ["!a"; "!b"], world st1))
    by reflexivity.
  split; [exact Hf|]. split; [exact Hl|]. split; [exact Hne|]. split; [exact Hr|].
  exact (changed_version_notifies_every_room Sim.env run_update
           (check_url_web "2.22.1") v_2_22_1 v_2_22_5 st1 ["!a"; "!b"] (world st1)
           Hf Hl Hne Hr).
Defined.

Lemma failed_save_is_logged_witness :
  let st1 := snd (fetch env_read_only run_first) in
  fetch env_read_only run_first = (Ok (check_url_web "None", v_2_22_1), st1)
  ∧ parse_if_set (config run_first !! "last_known_version") = Ok None
  ∧ None ≠ Some v_2_22_1
  ∧ (∀ cfg w, ∃ e, fst (config_store_save env_read_only cfg w) = Raise e)
  ∧ ∃ st' d,
      poll_cycle env_read_only run_first = (Ok tt, st')
      ∧ parse_if_set (config st' !! "last_known_version") = Ok (Some v_2_22_1)
      ∧ trace st' = trace run_first
                    ++ d
                    ++ [ EvSave (config st');
                         EvLog Error "Error polling WhatsApp web version";
                         EvSleep 3600 ]
      ∧ saves d = [].
Proof.
  intros st1.
  assert (Hf : fetch env_read_only run_first
               = (Ok (check_url_web "None", v_2_22_1), st1))
    by (vm_compute; reflexivity).
  assert (Hl : parse_if_set (config run_first !! "last_known_version") = Ok None)
    by (vm_compute; reflexivity).
  assert (Hne : None ≠ Some v_2_22_1) by discriminate.
  assert (Hro : ∀ cfg w, ∃ e, fst (config_store_save env_read_only cfg w) = Raise e)
    by (intros cfg w; eexists; reflexivity).
  split; [exact Hf|]. split; [exact Hl|]. split; [exact Hne|]. split; [exact Hro|].
  exact (failed_save_is_logged env_read_only run_first (check_url_web "None")
           v_2_22_1 st1 None Hf Hl Hne Hro).
Defined.

Lemma baseline_after_cycle_witness :
  let st1 := snd (fetch Sim.env run_update) in
  let st' := snd (poll_cycle Sim.env run_update) in
  fetch Sim.env run_update = (Ok (check_url_web "2.22.1", v_2_22_5), st1)
  ∧ parse_if_set (config st' !! "last_known_version") = Ok (Some v_2_22_5)
  ∧ ∀ k, k ≠ "last_known_version" → config st' !! k = config run_update !! k.
Proof.
  intros st1 st'.
  assert (Hf : fetch Sim.env run_update
               = (Ok (check_url_web "2.22.1", v_2_22_5), st1))
    by (vm_compute; reflexivity).
  split; [exact Hf|].
  exact (baseline_after_cycle Sim.env run_update (check_url_web "2.22.1")
           v_2_22_5 st1 Hf).
Defined.

Lemma repeated_version_is_quiet_witness :
  let st1 := snd (fetch Sim.env run_update) in
  let st' := snd (poll_cycle Sim.env run_update) in
  let st2 := snd (fetch Sim.env st') in
  fetch Sim.env run_update = (Ok (check_url_web "2.22.1", v_2_22_5), st1)
  ∧ fetch Sim.env st' = (Ok (check_url_web "2.22.5", v_2_22_5), st2)
  ∧ poll_cycle Sim.env st'
    = (Ok tt,
       {| config := config st'; poll_task := poll_task st'; world := world st2;
          trace := trace st'
                   ++ [EvGet (check_url_web "2.22.5") USER_AGENT; EvSleep 3600] |})
  ∧ ∃ p, query (check_url_web "2.22.5")
         = [ ("version", VersionInfo.str v_2_22_5); ("platform", p) ].
Proof.
  intros st1 st' st2.
  assert (Hf : fetch Sim.env run_update
               = (Ok (check_url_web "2.22.1", v_2_22_5), st1))
    by (vm_compute; reflexivity).
  assert (Hf' : fetch Sim.env st' = (Ok (check_url_web "2.22.5", v_2_22_5), st2))
    by (vm_compute; reflexivity).
  split; [exact Hf|]. split; [exact Hf'|].
  exact (repeated_version_is_quiet Sim.env run_update (check_url_web "2.22.1")
           (check_url_web "2.22.5") v_2_22_5 st1 st2 Hf Hf').
Defined.

Lemma baseline_request_witness :
  config run_update !! "last_known_version" = Some "2.22.1"
  ∧ VersionInfo.parse "2.22.1" = Some v_2_22_1
  ∧ config run_update !! "platform" = Some "web"
  ∧ trace (snd (fetch Sim.env run_update))
    = trace run_update
      ++ [ EvGet {| base := "https://web.whatsapp.com/check-update";
                    query := [ ("version", "2.22.1"); ("platform", "web") ] |}
                 USER_AGENT ].
Proof.
  assert (H1 : config run_update !! "last_known_version" = Some "2.22.1")
    by (vm_compute; reflexivity).
  assert (H2 : VersionInfo.parse "2.22.1" = Some v_2_22_1) by reflexivity.
  assert (H3 : config run_update !! "platform" = Some "web")
    by (vm_compute; reflexivity).
  split; [exact H1|]. split; [exact H2|]. split; [exact H3|].
  exact (baseline_request Sim.env run_update "2.22.1" "web" v_2_22_1 H1 H2 H3).
Defined.

Lemma start_needs_configuration_witness :
  let e := Exception "OSError" in
  load_and_update env_unreadable run_unconfigured = (Raise e, run_unconfigured)
  ∧ start env_unreadable run_unconfigured = (Raise e, run_unconfigured)
  ∧ poll_task run_unconfigured = poll_task run_unconfigured.
Proof.
  intros e.
  assert (H : load_and_update env_unreadable run_unconfigured
              = (Raise e, run_unconfigured)) by reflexivity.
  split; [exact H|].
  exact (start_needs_configuration env_unreadable run_unconfigured e
           run_unconfigured H).
Defined.

Lemma unknown_platform_label_witness :
  (∀ p, Some "linux" = Some p → p ∉ known_platforms)
  ∧ thing_of (Some "linux") = "unknown WhatsApp web platform".
Proof.
  assert (H : ∀ p, Some "linux" = Some p → p ∉ known_platforms).
  { intros p [= <-] Hin. unfold known_platforms in Hin.
    repeat (apply elem_of_cons in Hin as [Hin|Hin]; [discriminate|]).
    inversion Hin. }
  split; [exact H|].
  exact (unknown_platform_label (Some "linux") H).
Defined.
